(** * RIA store helpers and the 7-zip archive shim of datalad

    A shallow embedding of [datalad/customremotes/ria_utils.py] and of
    [compress_files] and [decompress_file] from
    [datalad/support/archive_utils_7z.py], with the
    properties of the layout resolver, the two initialisers, the URL
    verifier and the archive shim stated and proved over it.

    Python [str] values are modelled as [string] (sequences of 8-bit
    characters, so the development speaks about ASCII text), Python [int]
    as [Z], [pathlib] paths as a root marker plus the list of their names,
    and a filesystem as a finite map from paths to file contents together
    with a finite set of directories. *)

From stdpp Require Import base decidable countable strings list gmap pretty.
From Stdlib Require Import ZArith Ascii String.

Local Open Scope string_scope.

(** ** Python values: exceptions and results *)

(** The exception classes the two source files raise or let through.
    [OSError] stands for the failures of the filesystem primitives
    ([FileNotFoundError], [IsADirectoryError], ...) and [CommandError] for
    a failed external process. *)
Inductive PyExc : Type :=
  | ValueError (msg : string)
  | UnknownLayoutVersion (msg : string)
  | OSError (msg : string)
  | CommandError (msg : string).

Inductive res (A : Type) : Type :=
  | Ok (a : A)
  | Raise (e : PyExc).
Arguments Ok {A} a.
Arguments Raise {A} e.

(** ** Python [str] operations used by the sources *)

Module PyStr.

(** [str.isspace] on the ASCII range: TAB, LF, VT, FF, CR, the four
    separators FS/GS/RS/US and the blank. *)
Definition is_space (c : ascii) : bool :=
  let n := nat_of_ascii c in
  ((9 <=? n)%nat && (n <=? 13)%nat) || ((28 <=? n)%nat && (n <=? 32)%nat).

Fixpoint lstrip (s : string) : string :=
  match s with
  | "" => ""
  | String c s' => if is_space c then lstrip s' else s
  end.

Fixpoint rstrip (s : string) : string :=
  match s with
  | "" => ""
  | String c s' =>
      let r := rstrip s' in
      if String.eqb r "" && is_space c then "" else String c r
  end.

(** [s.lstrip(c)] for a single character [c] *)
Fixpoint lstrip_char (c : ascii) (s : string) : string :=
  match s with
  | "" => ""
  | String d s' => if Ascii.eqb d c then lstrip_char c s' else s
  end.

(** [s.strip()] *)
Definition strip (s : string) : string := rstrip (lstrip s).

(** [s.split(sep)[0]] for a one-character separator: the text before the
    first occurrence of [sep], the whole of [s] when there is none. *)
Fixpoint split_head (sep : ascii) (s : string) : string :=
  match s with
  | "" => ""
  | String c s' => if Ascii.eqb c sep then "" else String c (split_head sep s')
  end.

(** [s.split(sep)] for a one-character separator. *)
Fixpoint split (sep : ascii) (s : string) : list string :=
  match s with
  | "" => [""]
  | String c s' =>
      if Ascii.eqb c sep then "" :: split sep s'
      else match split sep s' with
           | [] => [String c ""]
           | w :: ws => String c w :: ws
           end
  end.

(** [s[:n]] and [s[n:]] for a non-negative literal [n]; both are total,
    a slice bound past the end yields what is there. *)
Fixpoint slice_to (n : nat) (s : string) : string :=
  match n, s with
  | S n', String c s' => String c (slice_to n' s')
  | _, _ => ""
  end.

Fixpoint slice_from (n : nat) (s : string) : string :=
  match n, s with
  | S n', String _ s' => slice_from n' s'
  | _, _ => s
  end.

(** [s.startswith(p)] and [s.endswith(p)] *)
Definition startswith (p s : string) : bool := String.prefix p s.

Definition endswith (p s : string) : bool :=
  String.eqb (slice_from (String.length s - String.length p) s) p
  && (String.length p <=? String.length s)%nat.

(** [sep.join(l)] *)
Fixpoint join (sep : string) (l : list string) : string :=
  match l with
  | [] => ""
  | [x] => x
  | x :: l' => x +:+ sep +:+ join sep l'
  end.

(** [x in l] on a list of strings *)
Definition py_in (x : string) (l : list string) : bool :=
  existsb (String.eqb x) l.

Definition hex_digit (n : nat) : ascii :=
  ascii_of_nat (if (n <? 10)%nat then 48 + n else 87 + n).

Definition has_char (c : ascii) (s : string) : bool :=
  existsb (Ascii.eqb c) (list_ascii_of_string s).

(** The double-quote character, by its code. *)
Definition dquote : ascii := "034"%char.

Definition repr_char (q : ascii) (c : ascii) : string :=
  let n := nat_of_ascii c in
  if Ascii.eqb c "\" then "\\"
  else if Ascii.eqb c q then String "\" (String q "")
  else if (n =? 10)%nat then "\n"
  else if (n =? 13)%nat then "\r"
  else if (n =? 9)%nat then "\t"
  else if (n <? 32)%nat || (n =? 127)%nat
       then "\x" +:+ String (hex_digit (n / 16)) (String (hex_digit (n mod 16)) "")
  else String c "".

(** [repr(s)]: single quotes unless the text has a single and no double
    quote; backslash, the quote and control characters escaped. *)
Definition repr (s : string) : string :=
  let q : ascii :=
    if has_char "'" s && negb (has_char dquote s) then dquote else "'"%char in
  String q (String.concat "" (map (repr_char q) (list_ascii_of_string s)))
    +:+ String q "".

(** [repr(l)] / [str(l)] of a list of strings *)
Definition repr_list (l : list string) : string :=
  "[" +:+ join ", " (map repr l) +:+ "]".

(** [str(n)] of an int *)
Definition of_int (n : Z) : string := pretty n.

Definition is_digit (c : ascii) : bool :=
  let n := nat_of_ascii c in (48 <=? n)%nat && (n <=? 57)%nat.

Definition digit_val (c : ascii) : Z := Z.of_nat (nat_of_ascii c - 48).

(** The digit part of an [int()] literal in base 10: digits, with single
    underscores allowed between two digits. *)
Fixpoint parse_digits (acc : Z) (after_digit : bool) (s : string) : option Z :=
  match s with
  | "" => if after_digit then Some acc else None
  | String c s' =>
      if is_digit c then parse_digits (10 * acc + digit_val c)%Z true s'
      else if Ascii.eqb c "_" && after_digit then
        match s' with
        | String d _ => if is_digit d then parse_digits acc false s' else None
        | "" => None
        end
      else None
  end.

(** The blanks [int()] skips around a literal: TAB, LF, VT, FF, CR and the
    space. The separators FS/GS/RS/US, which [str.strip] removes, are not
    among them: [int] of a text that starts with one raises. *)
Definition is_int_space (c : ascii) : bool :=
  let n := nat_of_ascii c in
  ((9 <=? n)%nat && (n <=? 13)%nat) || (n =? 32)%nat.

Fixpoint lstrip_by (f : ascii → bool) (s : string) : string :=
  match s with
  | "" => ""
  | String c s' => if f c then lstrip_by f s' else s
  end.

Fixpoint rstrip_by (f : ascii → bool) (s : string) : string :=
  match s with
  | "" => ""
  | String c s' =>
      let r := rstrip_by f s' in
      if String.eqb r "" && f c then "" else String c r
  end.

(** [int(s)] for a [str] argument. *)
Definition to_int (s : string) : res Z :=
  let bad := Raise (ValueError ("invalid literal for int() with base 10: " +:+ repr s)) in
  let t := rstrip_by is_int_space (lstrip_by is_int_space s) in
  match t with
  | String "+" r => match parse_digits 0 false r with Some n => Ok n | None => bad end
  | String "-" r => match parse_digits 0 false r with Some n => Ok (- n)%Z | None => bad end
  | _ => match parse_digits 0 false t with Some n => Ok n | None => bad end
  end.

End PyStr.

(** ** [pathlib] paths (POSIX flavour) *)

(** A path is its root (the empty text for a relative path, one slash, or
    two slashes when the text began with exactly two) and the list of its
    names. *)
Record Path : Type := mkPath { root : string; names : list string }.

#[global] Instance Path_eq_dec : EqDecision Path.
Proof. solve_decision. Defined.

#[global] Instance Path_countable : Countable Path.
Proof.
  apply (inj_countable' (fun p => (root p, names p))
                        (fun rn => mkPath (fst rn) (snd rn))).
  by intros [].
Defined.

Module PyPath.

Fixpoint count_leading (c : ascii) (s : string) : nat :=
  match s with
  | String d s' => if Ascii.eqb d c then S (count_leading c s') else 0
  | "" => 0
  end.

(** [splitroot]: the root of a path text and the text after it. *)
Definition splitroot (part : string) : string * string :=
  let k := count_leading "/" part in
  let rel := PyStr.slice_from k part in
  match k with
  | 0 => ("", rel)
  | 2 => ("//", rel)
  | _ => ("/", rel)
  end.

Definition keep_name (x : string) : bool :=
  negb (String.eqb x "") && negb (String.eqb x ".").

(** [Path(s)]: empty names and single dots are dropped. *)
Definition parse (s : string) : Path :=
  let '(r, rel) := splitroot s in
  mkPath r (List.filter keep_name (PyStr.split "/" rel)).

(** [p / s]: a rooted right operand replaces the left one, any other
    contributes its names. *)
Definition div (p : Path) (s : string) : Path :=
  let q := parse s in
  if String.eqb (root q) "" then mkPath (root p) (names p ++ names q) else q.

(** [str(p)] *)
Definition to_str (p : Path) : string :=
  let s := root p +:+ PyStr.join "/" (names p) in
  if String.eqb s "" then "." else s.

(** [p.name]: the last name, empty for a path without names. *)
Definition name (p : Path) : string := List.last (names p) "".

(** [p.suffixes] *)
Definition suffixes (p : Path) : list string :=
  let n := name p in
  if PyStr.endswith "." n then []
  else map (fun x => "." +:+ x) (List.tl (PyStr.split "." (PyStr.lstrip_char "." n))).

(** The path itself and the directories above it that carry a name, top
    first: what [mkdir(parents=True)] has to provide. *)
Definition with_parents (p : Path) : list Path :=
  map (fun k => mkPath (root p) (take k (names p))) (seq 1 (List.length (names p))).

End PyPath.

Declare Scope path_scope.
Delimit Scope path_scope with path.
Bind Scope path_scope with Path.
Notation "p / s" := (PyPath.div p s) : path_scope.

(** ** Filesystems *)

(** Files and directories are told apart by the path that names them, as
    [pathlib] compares paths: a name [..] is a name like any other and is
    not resolved, and there are no links. Two paths that differ only by
    such names are two places here. *)
Record FS : Type := mkFS { files : gmap Path string; dirs : gset Path }.

Module Fs.

Definition empty : FS := mkFS ∅ ∅.

(** A path exists when it names a file or a directory. *)
Definition exists_ (p : Path) (fs : FS) : bool :=
  match files fs !! p with
  | Some _ => true
  | None => bool_decide (p ∈ dirs fs)
  end.

Definition read_text (p : Path) (fs : FS) : res string :=
  match files fs !! p with
  | Some c => Ok c
  | None => Raise (OSError ("Cannot read file: " +:+ PyPath.to_str p))
  end.

(** Creates the directory and the missing directories above it; an
    existing directory is left as it is. *)
Definition mkdir (p : Path) (fs : FS) : FS :=
  mkFS (files fs) (dirs fs ∪ list_to_set (PyPath.with_parents p)).

Definition write_text (p : Path) (content : string) (fs : FS) : FS :=
  mkFS (<[p := content]> (files fs)) (dirs fs).

(** [Path.unlink]: removes a file, fails on anything else. *)
Definition unlink (p : Path) (fs : FS) : res unit * FS :=
  match files fs !! p with
  | Some _ => (Ok tt, mkFS (delete p (files fs)) (dirs fs))
  | None => (Raise (OSError ("Cannot unlink: " +:+ PyPath.to_str p)), fs)
  end.

End Fs.

(** ** The world of the RIA helpers *)

(** The two execution instances [create_store] and [create_ds_in_store]
    document for their [io] argument. *)
Inductive StorageIO : Type := LocalIO | SSHRemoteIO.

(** The mutating operations an [io] instance performs. *)
Inductive Event : Type :=
  | EvMkdir (io : StorageIO) (p : Path)
  | EvWriteFile (io : StorageIO) (p : Path) (content : string).

(** The filesystem of the machine the code runs on (what [pathlib] and
    [LocalIO] see), the filesystem at the other end of an [SSHRemoteIO],
    and the mutating operations performed so far, oldest first. *)
Record World : Type :=
  mkWorld { local_fs : FS; remote_fs : FS; oplog : list Event }.

Definition io_fs (io : StorageIO) (w : World) : FS :=
  match io with
  | LocalIO => local_fs w
  | SSHRemoteIO => remote_fs w
  end.

Definition io_update (io : StorageIO) (f : FS → FS) (w : World) : World :=
  match io with
  | LocalIO => mkWorld (f (local_fs w)) (remote_fs w) (oplog w)
  | SSHRemoteIO => mkWorld (local_fs w) (f (remote_fs w)) (oplog w)
  end.

Definition log_event (ev : Event) (w : World) : World :=
  mkWorld (local_fs w) (remote_fs w) (oplog w ++ [ev]).

(** The effect of one mutating operation, which is also recorded. *)
Definition do_event (w : World) (ev : Event) : World :=
  log_event ev
    match ev with
    | EvMkdir io p => io_update io (Fs.mkdir p) w
    | EvWriteFile io p content => io_update io (Fs.write_text p content) w
    end.

(** Computations over a world [W] that may raise. *)
Definition ST (W A : Type) : Type := W → res A * W.

#[global] Instance ST_ret {W} : MRet (ST W) := λ A a w, (Ok a, w).

#[global] Instance ST_bind {W} : MBind (ST W) := λ A B k m w,
  match m w with
  | (Ok a, w') => k a w'
  | (Raise e, w') => (Raise e, w')
  end.

Definition raise {W A : Type} (e : PyExc) : ST W A := λ w, (Raise e, w).

(** A pure computation that may raise, run over a world. *)
Definition lift {W A : Type} (r : res A) : ST W A := λ w, (r, w).

Abbreviation M := (ST World).

(** [try: r  except ValueError as e: h(str(e))] for a pure [r]. *)
Definition except_ValueError {A : Type} (r : res A) (h : string → res A) : res A :=
  match r with
  | Raise (ValueError msg) => h msg
  | _ => r
  end.

(** Modelled from the spec: the StorageIO capability, whose implementations
    are not among the sources: exists(path) -> bool, readFile(path) ->
    string, writeFile(path, content), mkdir(path) which creates the
    intermediate parents. Each acts on the filesystem its instance stands
    for. *)
Definition io_exists (io : StorageIO) (p : Path) : M bool :=
  λ w, (Ok (Fs.exists_ p (io_fs io w)), w).

Definition io_read_file (io : StorageIO) (p : Path) : M string :=
  λ w, (Fs.read_text p (io_fs io w), w).

Definition io_mkdir (io : StorageIO) (p : Path) : M unit :=
  λ w, (Ok tt, do_event w (EvMkdir io p)).

Definition io_write_file (io : StorageIO) (p : Path) (content : string) : M unit :=
  λ w, (Ok tt, do_event w (EvWriteFile io p content)).

(** [Path.exists()] and [Path.read_text()] of [pathlib]: always the
    filesystem of the machine the code runs on. *)
Definition path_exists (p : Path) : M bool :=
  λ w, (Ok (Fs.exists_ p (local_fs w)), w).

Definition path_read_text (p : Path) : M string :=
  λ w, (Fs.read_text p (local_fs w), w).

#[global] Instance res_ret : MRet res := λ A a, Ok a.

#[global] Instance res_bind : MBind res := λ A B k r,
  match r with
  | Ok a => k a
  | Raise e => Raise e
  end.

Local Open Scope path_scope.

(** ** datalad/customremotes/ria_utils.py *)

(** Object tree versions: the layout within a dataset in a RIA store. *)
Definition known_versions_objt : list string := ["1"; "2"].

(** Dataset tree versions: the layout of datasets in a RIA store. *)
Definition known_versions_dst : list string := ["1"].

(** [get_layout_locations(version, base_path, dsid)]: the bare dataset
    repository, the directory of its archives and its annex object
    directory. A function of its arguments only: it takes no world. *)
Definition get_layout_locations (version : Z) (base_path : Path) (dsid : string)
  : res (Path * Path * Path) :=
  if (version =? 1)%Z then
    let dsgit_dir := base_path / PyStr.slice_to 3 dsid / PyStr.slice_from 3 dsid in
    let archive_dir := dsgit_dir / "archives" in
    let dsobj_dir := dsgit_dir / "annex" / "objects" in
    Ok (dsgit_dir, archive_dir, dsobj_dir)
  else
    Raise (ValueError ("Unknown layout version: " +:+ PyStr.of_int version
                       +:+ ". Supported: " +:+ PyStr.repr_list known_versions_dst)).

(** [create_store(io, base_path, version)] *)
Definition create_store (io : StorageIO) (base_path : Path) (version : string) : M unit :=
  if negb (PyStr.py_in version known_versions_dst) then
    raise (UnknownLayoutVersion
             ("RIA store layout version unknown: " +:+ version
              +:+ ".Supported versions: " +:+ PyStr.repr_list known_versions_dst))
  else
    let error_logs := base_path / "error_logs" in
    let version_file := base_path / "ria-layout-version" in
    found ← io_exists io version_file;
    if (found : bool) then
      content ← io_read_file io version_file;
      let existing_version := PyStr.strip (PyStr.split_head "|" content) in
      if negb (String.eqb existing_version (PyStr.split_head "|" version)) then
        raise (ValueError ("Conflicting version found at target: " +:+ existing_version))
      else
        mret tt
    else
      io_mkdir io error_logs;;
      io_write_file io version_file version.

(** [create_ds_in_store(io, base_path, dsid, obj_version, store_version)].
    The version file is looked for and read with the methods of the path
    itself, as in the source. *)
Definition create_ds_in_store (io : StorageIO) (base_path : Path) (dsid : string)
    (obj_version store_version : string) : M unit :=
  '(dsgit_dir, archive_dir, dsobj_dir) ←
    lift (except_ValueError
            (v ← PyStr.to_int store_version; get_layout_locations v base_path dsid)
            (λ msg, Raise (UnknownLayoutVersion msg)));
  if negb (PyStr.py_in obj_version known_versions_objt) then
    raise (UnknownLayoutVersion
             ("Dataset layout version unknown: " +:+ obj_version
              +:+ ". Supported: " +:+ PyStr.repr_list known_versions_objt))
  else
    let version_file := dsgit_dir / "ria-layout-version" in
    found ← path_exists version_file;
    (if (found : bool) then
       content ← path_read_text version_file;
       let existing_version := PyStr.strip (PyStr.split_head "|" content) in
       if negb (String.eqb existing_version (PyStr.split_head "|" obj_version)) then
         raise (ValueError ("Conflicting dataset layout version found at target: "
                            +:+ existing_version))
       else
         mret tt
     else
       mret tt);;
    io_mkdir io archive_dir;;
    io_mkdir io dsobj_dir;;
    io_write_file io version_file obj_version.

(** [verify_ria_url] imports [rewrite_url] from [datalad.config] and [URL]
    from [datalad.support.network]; neither is among the sources, so both
    are taken as given. Of a parsed URL the function reads four fields. *)
Record URL : Type :=
  mkURL { url_scheme : string; url_hostname : option string;
          url_path : string; url_fragment : string }.

Class UrlTools (Cfg : Type) : Type :=
  { rewrite_url : Cfg → string → string;
    URL_parse : string → URL }.

(** [verify_ria_url(url, cfg)]: host, base path and rewritten URL. *)
Definition verify_ria_url {Cfg : Type} {tools : UrlTools Cfg} (url : string) (cfg : Cfg)
  : res (option string * string * string) :=
  if String.eqb url "" then Raise (ValueError "Got no URL")
  else
    let url := rewrite_url cfg url in
    let url_ri := URL_parse url in
    if negb (PyStr.startswith "ria+" (url_scheme url_ri)) then
      Raise (ValueError ("Missing ria+ prefix in final URL: " +:+ url))
    else if negb (String.eqb (url_fragment url_ri) "") then
      Raise (ValueError ("Unexpected fragment in RIA-store URL: " +:+ url_fragment url_ri))
    else
      let protocol := PyStr.slice_from 4 (url_scheme url_ri) in
      if negb (PyStr.py_in protocol ["ssh"; "file"]) then
        Raise (ValueError ("Unsupported protocol: " +:+ protocol
                           +:+ ". Supported: ssh, file"))
      else
        Ok (if String.eqb protocol "ssh" then url_hostname url_ri else None,
            url_path url_ri, url).

(** ** datalad/support/archive_utils_7z.py *)

(** A command for [Runner.run]: one shell line or an argument vector. *)
Inductive Cmd : Type :=
  | CmdShell (line : string)
  | CmdArgs (argv : list string).

Inductive ArchEvent : Type :=
  | EvUnlink (p : Path)
  | EvRun (cwd : option string) (cmd : Cmd).

(** The filesystem of the machine and what was done to it, oldest first. *)
Record ArchWorld : Type := mkArchWorld { arch_fs : FS; arch_log : list ArchEvent }.

(** [quote_cmdlinearg] of [datalad.utils] and the external process behind
    [Runner(cwd=...).run(cmd)] are not among the sources: the first is any
    function on texts, the second any outcome and any change of the
    filesystem. *)
Class ArchTools : Type :=
  { quote_cmdlinearg : string → string;
    run_process : option string → Cmd → FS → res unit * FS }.

Definition apath_exists (p : Path) : ST ArchWorld bool :=
  λ w, (Ok (Fs.exists_ p (arch_fs w)), w).

Definition apath_unlink (p : Path) : ST ArchWorld unit :=
  λ w, match Fs.unlink p (arch_fs w) with
       | (Ok _, fs') => (Ok tt, mkArchWorld fs' (arch_log w ++ [EvUnlink p]))
       | (Raise e, _) => (Raise e, w)
       end.

Definition runner_run {tools : ArchTools} (cwd : option string) (cmd : Cmd) : ST ArchWorld unit :=
  λ w, let '(r, fs') := run_process cwd cmd (arch_fs w) in
       (r, mkArchWorld fs' (arch_log w ++ [EvRun cwd cmd])).

(** The command [compress_files] builds: through a tar stream when the
    last but one suffix of the target is [.tar], a direct update otherwise. *)
Definition compress_cmd {tools : ArchTools} (files : list string) (apath : Path) : Cmd :=
  let sfx := PyPath.suffixes apath in
  if (1 <? List.length sfx)%nat
     && String.eqb (nth (List.length sfx - 2) sfx "") ".tar"
  then CmdShell ("7z u .tar -so -- "
                 +:+ PyStr.join " " (map quote_cmdlinearg files)
                 +:+ " | 7z u -si -- "
                 +:+ quote_cmdlinearg (PyPath.to_str apath))
  else CmdArgs (["7z"; "u"; PyPath.to_str apath; "--"] ++ files).

(** [compress_files(files, archive, path=None, overwrite=True)] *)
Definition compress_files {tools : ArchTools} (files : list string) (archive : string)
    (path : option string) (overwrite : bool) : ST ArchWorld unit :=
  let apath := PyPath.parse archive in
  found ← apath_exists apath;
  (if (found : bool) then
     if overwrite then apath_unlink apath
     else raise (ValueError ("Target archive " +:+ PyPath.to_str apath
                             +:+ " already exists and overwrite is forbidden"))
   else mret tt);;
  let cmd := compress_cmd files apath in
  runner_run path cmd.

(** [decompress_file(archive, dir_)]: a compressed tar file goes through
    the decompressor into a tar extraction, anything else is extracted
    directly; the process runs in [dir_]. *)
Definition decompress_file {tools : ArchTools} (archive dir_ : string)
  : ST ArchWorld unit :=
  let apath := PyPath.parse archive in
  let sfx := PyPath.suffixes apath in
  let cmd :=
    if (1 <? List.length sfx)%nat
       && String.eqb (nth (List.length sfx - 2) sfx "") ".tar"
    then CmdShell ("7z x " +:+ quote_cmdlinearg archive +:+ " -so | 7z x -si -ttar")
    else CmdArgs ["7z"; "x"; archive] in
  runner_run (Some dir_) cmd.

(** Texts in which a given character does not occur. *)
Definition free_of (c : ascii) (s : string) : bool := negb (PyStr.has_char c s).

(** A piece of a file name: not empty, without slash and without dot. *)
Definition plain_part (s : string) : bool :=
  free_of "/" s && free_of "." s && negb (String.eqb s "").

(** ** Executions as sequences of worlds *)

(** The operations a run from [w] to [w'] has added to the record. *)
Definition new_events (w w' : World) : list Event :=
  drop (List.length (oplog w)) (oplog w').

Definition replay (w : World) (evs : list Event) : World :=
  foldl do_event w evs.

(** The worlds an observer can see while [evs] are performed from [w]:
    the one before the first operation, the one after each. *)
Definition states_of_run (w : World) (evs : list Event) : list World :=
  map (λ k, replay w (take k evs)) (seq 0 (S (List.length evs))).

(** The operations of a run of [create_ds_in_store] that gets past its
    checks, in the order of the source. *)
Definition ds_events (io : StorageIO) (base_path : Path) (dsid obj_version : string)
  : list Event :=
  let dsgit_dir := base_path / PyStr.slice_to 3 dsid / PyStr.slice_from 3 dsid in
  [EvMkdir io (dsgit_dir / "archives");
   EvMkdir io (dsgit_dir / "annex" / "objects");
   EvWriteFile io (dsgit_dir / "ria-layout-version") obj_version].

(** ** The dataset initialiser as the specification words it *)

(** The specification has the dataset initialiser apply the same check as
    the store initialiser: the version file is looked for and read through
    the [io] capability. Everything else is [create_ds_in_store]. *)
Definition create_ds_in_store_spec (io : StorageIO) (base_path : Path) (dsid : string)
    (obj_version store_version : string) : M unit :=
  '(dsgit_dir, archive_dir, dsobj_dir) ←
    lift (except_ValueError
            (v ← PyStr.to_int store_version; get_layout_locations v base_path dsid)
            (λ msg, Raise (UnknownLayoutVersion msg)));
  if negb (PyStr.py_in obj_version known_versions_objt) then
    raise (UnknownLayoutVersion
             ("Dataset layout version unknown: " +:+ obj_version
              +:+ ". Supported: " +:+ PyStr.repr_list known_versions_objt))
  else
    let version_file := dsgit_dir / "ria-layout-version" in
    found ← io_exists io version_file;
    (if (found : bool) then
       content ← io_read_file io version_file;
       let existing_version := PyStr.strip (PyStr.split_head "|" content) in
       if negb (String.eqb existing_version (PyStr.split_head "|" obj_version)) then
         raise (ValueError ("Conflicting dataset layout version found at target: "
                            +:+ existing_version))
       else
         mret tt
     else
       mret tt);;
    io_mkdir io archive_dir;;
    io_mkdir io dsobj_dir;;
    io_write_file io version_file obj_version.

(** ** Sample collaborators *)

Module Sample.

(** Modelled from the spec: the URL rewrite capability, rewrite(config,
    url) -> url, applying configuration-driven aliasing/substitution. A
    configuration is a list of rules (base, prefix); the first rule
    whose prefix the URL starts with replaces that prefix by its base. *)
Fixpoint insteadof (cfg : list (string * string)) (url : string) : string :=
  match cfg with
  | [] => url
  | (base, pre) :: cfg' =>
      if PyStr.startswith pre url
      then base +:+ PyStr.slice_from (String.length pre) url
      else insteadof cfg' url
  end.

(** The text before the first occurrence of [sub] and the text after it. *)
Fixpoint cut (sub s : string) : option (string * string) :=
  if String.prefix sub s then Some ("", PyStr.slice_from (String.length sub) s)
  else match s with
       | "" => None
       | String c s' =>
           match cut sub s' with
           | Some (a, b) => Some (String c a, b)
           | None => None
           end
       end.

(** Modelled from the spec: URL parsing, for the accepted forms
    ria+ssh://<host>/<path> and ria+file:///<path>, followed or not by
    #<fragment>. *)
Definition parse_url (u : string) : URL :=
  let '(loc, frag) := default (u, "") (cut "#" u) in
  match cut "://" loc with
  | Some (sch, rest) =>
      let host := PyStr.split_head "/" rest in
      mkURL sch (if String.eqb host "" then None else Some host)
            (PyStr.slice_from (String.length host) rest) frag
  | None => mkURL "" None loc frag
  end.

#[export] Instance url_tools : UrlTools (list (string * string)) :=
  {| rewrite_url := insteadof; URL_parse := parse_url |}.

(** An archiver that succeeds and leaves an archive at the target of an
    argument-vector command; single-quoting for the shell. *)
#[export] Instance arch_tools : ArchTools :=
  {| quote_cmdlinearg := λ s, "'" +:+ s +:+ "'";
     run_process := λ _ cmd fs,
       match cmd with
       | CmdArgs (_ :: _ :: target :: _) =>
           (Ok tt, Fs.write_text (PyPath.parse target) "7z" fs)
       | _ => (Ok tt, fs)
       end |}.

Definition fresh : World := mkWorld Fs.empty Fs.empty [].

Definition store : Path := PyPath.parse "/store".

End Sample.

(** * Properties *)

(** ** Texts and paths *)

Lemma py_in_elem_of (x : string) (l : list string) :
  PyStr.py_in x l = true ↔ x ∈ l.
Proof.
  unfold PyStr.py_in. induction l as [|y l IH]; simpl.
  - split; [discriminate | by intros ?%elem_of_nil].
  - rewrite orb_true_iff, String.eqb_eq, IH, elem_of_cons. done.
Qed.

Lemma known_versions_dst_only (v : string) :
  v ∈ known_versions_dst → v = "1".
Proof. unfold known_versions_dst. by intros ->%list_elem_of_singleton. Qed.

Lemma slice_to_short (n : nat) (s : string) :
  (String.length s ≤ n)%nat → PyStr.slice_to n s = s.
Proof.
  revert n; induction s as [|c s IH]; intros [|n] Hn; simpl in *; try done; try lia.
  f_equal. apply IH. lia.
Qed.

Lemma slice_from_short (n : nat) (s : string) :
  (String.length s ≤ n)%nat → PyStr.slice_from n s = "".
Proof.
  revert n; induction s as [|c s IH]; intros [|n] Hn; simpl in *; try done; try lia.
  apply IH. lia.
Qed.

(** Slicing loses nothing: [s[:n] + s[n:]] is [s]. *)
Lemma slice_to_from (n : nat) (s : string) :
  PyStr.slice_to n s +:+ PyStr.slice_from n s = s.
Proof.
  revert n; induction s as [|c s IH]; intros [|n]; simpl; try done.
  exact (f_equal (String c) (IH n)).
Qed.

Lemma div_empty (p : Path) : p / "" = p.
Proof. destruct p as [r ns]. unfold PyPath.div; simpl. by rewrite app_nil_r. Qed.

(** A literal name without a slash adds exactly itself. *)
Lemma div_archives (p : Path) :
  p / "archives" = mkPath (root p) (names p ++ ["archives"]).
Proof. reflexivity. Qed.

Lemma div_annex_objects (p : Path) :
  p / "annex" / "objects" = mkPath (root p) (names p ++ ["annex"; "objects"]).
Proof. unfold PyPath.div; simpl. by rewrite <- app_assoc. Qed.

Lemma div_version_file (p : Path) :
  p / "ria-layout-version" = mkPath (root p) (names p ++ ["ria-layout-version"]).
Proof. reflexivity. Qed.

(** ** The layout resolver *)

(** C4, as the code has it. For every version other than the integer 1 the
    resolver fails with a [ValueError] (not with [UnknownLayoutVersion])
    whose message carries the offending version and the list of supported
    versions. *)
Theorem get_layout_locations_unknown (version : Z) (base_path : Path) (dsid : string) :
  version ≠ 1%Z →
  get_layout_locations version base_path dsid
    = Raise (ValueError ("Unknown layout version: " +:+ PyStr.of_int version
                         +:+ ". Supported: ['1']")).
Proof.
  intros Hv. unfold get_layout_locations.
  destruct (Z.eqb_spec version 1) as [->|_]; [done|]. reflexivity.
Qed.

Lemma get_layout_locations_unknown_witness :
  get_layout_locations 7 Sample.store "abcdef"
    = Raise (ValueError "Unknown layout version: 7. Supported: ['1']").
Proof. apply (get_layout_locations_unknown 7 Sample.store "abcdef"). lia. Defined.

(** C4 as stated fails: at version 2 the resolver raises a [ValueError],
    which is no [UnknownLayoutVersion]. *)
Lemma get_layout_locations_raises_ValueError :
  get_layout_locations 2 Sample.store "abcdef"
    = Raise (ValueError "Unknown layout version: 2. Supported: ['1']")
  ∧ ∀ msg, get_layout_locations 2 Sample.store "abcdef"
             ≠ Raise (UnknownLayoutVersion msg).
Proof. split; [reflexivity | intros msg; discriminate]. Qed.

(** C10. For a dataset id of fewer than three characters and version 1 the
    resolver succeeds: the prefix slice is the whole id, the remainder is
    empty and adds no level, so the repository directory is [base / id]. *)
Theorem get_layout_locations_short_id (base_path : Path) (dsid : string) :
  (String.length dsid < 3)%nat →
  PyStr.slice_to 3 dsid = dsid
  ∧ PyStr.slice_from 3 dsid = ""
  ∧ get_layout_locations 1 base_path dsid
      = Ok (base_path / dsid,
            base_path / dsid / "archives",
            base_path / dsid / "annex" / "objects").
Proof.
  intros Hlen.
  assert (Hto : PyStr.slice_to 3 dsid = dsid) by (apply slice_to_short; lia).
  assert (Hfrom : PyStr.slice_from 3 dsid = "") by (apply slice_from_short; lia).
  split_and!; [done..|].
  unfold get_layout_locations. rewrite Hto, Hfrom, div_empty. reflexivity.
Qed.

Lemma get_layout_locations_short_id_witness :
  get_layout_locations 1 Sample.store "ab"
    = Ok (mkPath "/" ["store"; "ab"],
          mkPath "/" ["store"; "ab"; "archives"],
          mkPath "/" ["store"; "ab"; "annex"; "objects"]).
Proof.
  apply (get_layout_locations_short_id Sample.store "ab"). simpl. lia.
Defined.

(** ** Worlds and their filesystems *)

Lemma io_fs_update (io : StorageIO) (f : FS → FS) (w : World) :
  io_fs io (io_update io f w) = f (io_fs io w).
Proof. by destruct io. Qed.

Lemma io_fs_log_event (io : StorageIO) (ev : Event) (w : World) :
  io_fs io (log_event ev w) = io_fs io w.
Proof. by destruct io. Qed.

Lemma io_fs_mkdir (io : StorageIO) (p : Path) (w : World) :
  io_fs io (do_event w (EvMkdir io p)) = Fs.mkdir p (io_fs io w).
Proof. unfold do_event. by rewrite io_fs_log_event, io_fs_update. Qed.

Lemma io_fs_write_file (io : StorageIO) (p : Path) (c : string) (w : World) :
  io_fs io (do_event w (EvWriteFile io p c)) = Fs.write_text p c (io_fs io w).
Proof. unfold do_event. by rewrite io_fs_log_event, io_fs_update. Qed.

Lemma oplog_do_event (w : World) (ev : Event) :
  oplog (do_event w ev) = (oplog w ++ [ev])%list.
Proof. by destruct ev as [[] ?|[] ? ?]. Qed.

Lemma exists_file (p : Path) (fs : FS) (c : string) :
  files fs !! p = Some c → Fs.exists_ p fs = true.
Proof. unfold Fs.exists_. by intros ->. Qed.

(** What was written is what is read back. *)
Lemma read_after_write (io : StorageIO) (p : Path) (c : string) (w : World) :
  files (io_fs io (do_event w (EvWriteFile io p c))) !! p = Some c.
Proof. rewrite io_fs_write_file. simpl. apply lookup_insert_eq. Qed.

(** ** The store initialiser *)

(** The only versions the store initialiser lets through compare as
    themselves once stripped. *)
Lemma known_dst_prefix_stripped (version : string) :
  version ∈ known_versions_dst →
  PyStr.strip (PyStr.split_head "|" version) = PyStr.split_head "|" version.
Proof. by intros ->%known_versions_dst_only. Qed.

(** The three ways a call of [create_store] with a known version goes. *)
Lemma create_store_absent (io : StorageIO) (base_path : Path) (version : string) (w : World) :
  version ∈ known_versions_dst →
  Fs.exists_ (base_path / "ria-layout-version") (io_fs io w) = false →
  create_store io base_path version w
    = (Ok tt, replay w [EvMkdir io (base_path / "error_logs");
                        EvWriteFile io (base_path / "ria-layout-version") version]).
Proof.
  intros Hv%py_in_elem_of Hex. unfold create_store. rewrite Hv. simpl.
  unfold mbind, ST_bind, io_exists. by rewrite Hex.
Qed.

Lemma create_store_present (io : StorageIO) (base_path : Path) (version content : string)
    (w : World) :
  version ∈ known_versions_dst →
  files (io_fs io w) !! (base_path / "ria-layout-version") = Some content →
  create_store io base_path version w
    = (if String.eqb (PyStr.strip (PyStr.split_head "|" content))
                     (PyStr.split_head "|" version)
       then Ok tt
       else Raise (ValueError ("Conflicting version found at target: "
                               +:+ PyStr.strip (PyStr.split_head "|" content))),
       w).
Proof.
  intros Hv%py_in_elem_of Hc. unfold create_store. rewrite Hv. simpl.
  unfold mbind, ST_bind, io_exists, io_read_file, Fs.read_text.
  rewrite (exists_file _ _ _ Hc), Hc.
  by destruct (String.eqb _ _).
Qed.

Lemma create_store_unknown (io : StorageIO) (base_path : Path) (version : string) (w : World) :
  version ∉ known_versions_dst →
  create_store io base_path version w
    = (Raise (UnknownLayoutVersion
                ("RIA store layout version unknown: " +:+ version
                 +:+ ".Supported versions: ['1']")), w).
Proof.
  intros Hv. unfold create_store.
  destruct (PyStr.py_in version known_versions_dst) eqn:E; [|done].
  by apply py_in_elem_of in E.
Qed.

(** Every run of [create_store] either raises in the world it started
    in, or returns in it, or returns after its two operations. *)
Lemma create_store_run (io : StorageIO) (base_path : Path) (version : string) (w : World) :
  (∃ e, create_store io base_path version w = (Raise e, w))
  ∨ (create_store io base_path version w = (Ok tt, w)
     ∧ version ∈ known_versions_dst
     ∧ ∃ content, files (io_fs io w) !! (base_path / "ria-layout-version") = Some content
         ∧ PyStr.strip (PyStr.split_head "|" content) = PyStr.split_head "|" version)
  ∨ (create_store io base_path version w
       = (Ok tt, replay w [EvMkdir io (base_path / "error_logs");
                           EvWriteFile io (base_path / "ria-layout-version") version])
     ∧ version ∈ known_versions_dst).
Proof.
  destruct (decide (version ∈ known_versions_dst)) as [Hv|Hv].
  2: { left. eexists. by apply create_store_unknown. }
  destruct (files (io_fs io w) !! (base_path / "ria-layout-version")) as [content|] eqn:Hc.
  - rewrite (create_store_present _ _ _ _ _ Hv Hc).
    destruct (String.eqb_spec (PyStr.strip (PyStr.split_head "|" content))
                              (PyStr.split_head "|" version)) as [Heq|Hne].
    + right; left. eauto.
    + left. eauto.
  - destruct (Fs.exists_ (base_path / "ria-layout-version") (io_fs io w)) eqn:Hex.
    + left. pose proof Hv as Hv'%py_in_elem_of.
      unfold create_store. rewrite Hv'. simpl.
      unfold mbind, ST_bind, io_exists, io_read_file, Fs.read_text.
      rewrite Hex, Hc. eauto.
    + right; right. split; [|done]. by apply create_store_absent.
Qed.

(** ** The dataset initialiser *)

#[local] Arguments PyStr.slice_to : simpl never.
#[local] Arguments PyStr.slice_from : simpl never.
#[local] Arguments PyPath.div : simpl never.
#[local] Arguments PyStr.py_in : simpl never.
#[local] Arguments PyStr.repr_list : simpl never.
#[local] Arguments String.append : simpl never.

(** Every run of [create_ds_in_store] either raises in the world it
    started in or returns after its three operations. *)
Lemma create_ds_in_store_run (io : StorageIO) (base_path : Path)
    (dsid obj_version store_version : string) (w : World) :
  (∃ e, create_ds_in_store io base_path dsid obj_version store_version w = (Raise e, w))
  ∨ create_ds_in_store io base_path dsid obj_version store_version w
      = (Ok tt, replay w (ds_events io base_path dsid obj_version)).
Proof.
  unfold create_ds_in_store, mbind at 1, ST_bind, lift.
  destruct (PyStr.to_int store_version) as [v|e]; simpl.
  2: { left. destruct e; simpl; eauto. }
  unfold get_layout_locations.
  destruct (v =? 1)%Z; simpl; [|left; eauto].
  destruct (PyStr.py_in obj_version known_versions_objt); simpl; [|left; eauto].
  unfold mbind, ST_bind, path_exists, path_read_text, Fs.read_text.
  destruct (Fs.exists_ _ (local_fs w)); simpl.
  - destruct (files (local_fs w) !! _) as [content|]; [|left; eauto].
    destruct (String.eqb _ _); simpl; [right|left; eauto]. reflexivity.
  - right. reflexivity.
Qed.

(** ** Version stamps of a store *)

(** C1, as the code has it. When the version file of a store holds
    [content] and the stripped text before its first bar differs from the
    text before the first bar of the requested version, [create_store]
    fails and leaves the world as it was: with [UnknownLayoutVersion] when
    the requested version is not a known one (that check comes first), and
    otherwise with the conflict error that reports the stored version. A
    stored [1|some-config] is compared, and reported, as [1]. *)
Theorem create_store_version_conflict (io : StorageIO) (base_path : Path)
    (version content : string) (w : World) :
  files (io_fs io w) !! (base_path / "ria-layout-version") = Some content →
  PyStr.strip (PyStr.split_head "|" content) ≠ PyStr.split_head "|" version →
  create_store io base_path version w
    = (if PyStr.py_in version known_versions_dst
       then Raise (ValueError ("Conflicting version found at target: "
                               +:+ PyStr.strip (PyStr.split_head "|" content)))
       else Raise (UnknownLayoutVersion
                     ("RIA store layout version unknown: " +:+ version
                      +:+ ".Supported versions: ['1']")),
       w)
  ∧ PyStr.strip (PyStr.split_head "|" "1|some-config") = "1".
Proof.
  intros Hc Hne. split; [|reflexivity].
  destruct (PyStr.py_in version known_versions_dst) eqn:Hv.
  - apply py_in_elem_of in Hv. rewrite (create_store_present _ _ _ _ _ Hv Hc).
    by destruct (String.eqb_spec (PyStr.strip (PyStr.split_head "|" content))
                                 (PyStr.split_head "|" version)).
  - apply create_store_unknown. intros Hin%py_in_elem_of. congruence.
Qed.

Lemma create_store_version_conflict_witness :
  let w := mkWorld (Fs.write_text (Sample.store / "ria-layout-version") "2|cfg" Fs.empty)
                   Fs.empty [] in
  create_store LocalIO Sample.store "1" w
    = (Raise (ValueError "Conflicting version found at target: 2"), w).
Proof.
  intros w.
  apply (create_store_version_conflict LocalIO Sample.store "1" "2|cfg" w).
  - vm_compute. reflexivity.
  - vm_compute. discriminate.
Defined.

(** C1 as stated fails: after [create_store(io, base, 1)] the stamp is
    [1], and [create_store(io, base, 2)] is refused as an unknown layout
    version, not as a conflict. *)
Lemma create_store_1_then_2_is_unknown_version :
  let w1 := snd (create_store LocalIO Sample.store "1" Sample.fresh) in
  fst (create_store LocalIO Sample.store "1" Sample.fresh) = Ok tt
  ∧ files (local_fs w1) !! (Sample.store / "ria-layout-version") = Some "1"
  ∧ create_store LocalIO Sample.store "2" w1
      = (Raise (UnknownLayoutVersion
                  "RIA store layout version unknown: 2.Supported versions: ['1']"), w1).
Proof.
  intros w1. split_and!.
  - vm_compute. reflexivity.
  - vm_compute. reflexivity.
  - apply create_store_unknown. intros Hin%known_versions_dst_only. discriminate.
Qed.

(** C2. For a supported version, a call of [create_store] that finds a
    version file whose text before the first bar is that of the requested
    version returns without having done anything, the world being the one
    it started in; and a call that returned, repeated in the world it
    left, returns again and leaves that world as it is. *)
Theorem create_store_idempotent (io : StorageIO) (base_path : Path) (version : string) :
  version ∈ known_versions_dst →
  (∀ (w : World) (content : string),
     files (io_fs io w) !! (base_path / "ria-layout-version") = Some content →
     PyStr.split_head "|" content = PyStr.split_head "|" version →
     create_store io base_path version w = (Ok tt, w))
  ∧ (∀ w w1 : World,
       create_store io base_path version w = (Ok tt, w1) →
       create_store io base_path version w1 = (Ok tt, w1)).
Proof.
  intros Hv.
  assert (Hnoop : ∀ (w : World) (content : string),
     files (io_fs io w) !! (base_path / "ria-layout-version") = Some content →
     PyStr.split_head "|" content = PyStr.split_head "|" version →
     create_store io base_path version w = (Ok tt, w)).
  { intros w content Hc Heq.
    rewrite (create_store_present _ _ _ _ _ Hv Hc), Heq.
    by rewrite (known_dst_prefix_stripped _ Hv), String.eqb_refl. }
  split; [exact Hnoop|].
  intros w w1 Hrun.
  destruct (create_store_run io base_path version w)
    as [[e He]|[[Hsame _]|[Hnew _]]]; rewrite Hrun in *.
  - discriminate.
  - by injection Hsame as <-.
  - injection Hnew as ->. apply (Hnoop _ version); [|done].
    simpl. apply read_after_write.
Qed.

Lemma create_store_idempotent_witness :
  let w0 := mkWorld (Fs.write_text (Sample.store / "ria-layout-version")
                                   "1|some-config" Fs.empty) Fs.empty [] in
  let w1 := snd (create_store SSHRemoteIO Sample.store "1" Sample.fresh) in
  create_store LocalIO Sample.store "1" w0 = (Ok tt, w0)
  ∧ create_store SSHRemoteIO Sample.store "1" w1 = (Ok tt, w1).
Proof.
  intros w0 w1.
  assert (Hin : "1" ∈ known_versions_dst) by apply list_elem_of_here.
  destruct (create_store_idempotent LocalIO Sample.store "1" Hin) as [Hnoop _].
  destruct (create_store_idempotent SSHRemoteIO Sample.store "1" Hin) as [_ Htwice].
  split.
  - apply (Hnoop w0 "1|some-config"); reflexivity.
  - apply (Htwice Sample.fresh). reflexivity.
Defined.

(** ** Errors leave the world alone *)

(** C9. Whenever [create_store] or [create_ds_in_store] raises, whatever
    the error, the world is the one the call started in: both filesystems
    are unchanged and no operation has been added to the record. *)
Theorem initializers_error_atomic (io : StorageIO) (base_path : Path)
    (version dsid obj_version store_version : string) (w : World) (e : PyExc) :
  (fst (create_store io base_path version w) = Raise e →
   snd (create_store io base_path version w) = w)
  ∧ (fst (create_ds_in_store io base_path dsid obj_version store_version w) = Raise e →
     snd (create_ds_in_store io base_path dsid obj_version store_version w) = w).
Proof.
  split.
  - destruct (create_store_run io base_path version w)
      as [[e' ->]|[[-> _]|[-> _]]]; simpl; done.
  - destruct (create_ds_in_store_run io base_path dsid obj_version store_version w)
      as [[e' ->]| ->]; simpl; done.
Qed.

Lemma initializers_error_atomic_witness :
  let w1 := snd (create_store LocalIO Sample.store "1" Sample.fresh) in
  let w2 := snd (create_ds_in_store LocalIO Sample.store "abcdef" "1" "1" w1) in
  snd (create_store LocalIO Sample.store "7" w1) = w1
  ∧ snd (create_ds_in_store LocalIO Sample.store "abcdef" "2" "1" w2) = w2.
Proof.
  intros w1 w2. split.
  - apply (proj1 (initializers_error_atomic LocalIO Sample.store "7" "" "" "" w1
             (UnknownLayoutVersion
                "RIA store layout version unknown: 7.Supported versions: ['1']"))).
    vm_compute. reflexivity.
  - apply (proj2 (initializers_error_atomic LocalIO Sample.store "" "abcdef" "2" "1" w2
             (ValueError "Conflicting dataset layout version found at target: 1"))).
    vm_compute. reflexivity.
Defined.

(** ** Where the dataset initialiser looks for the stamp *)

(** With a [LocalIO] the filesystem of the instance is the one [pathlib]
    sees, and the source does what the specification words. *)
Lemma create_ds_in_store_local (base_path : Path) (dsid obj_version store_version : string) :
  create_ds_in_store LocalIO base_path dsid obj_version store_version
  = create_ds_in_store_spec LocalIO base_path dsid obj_version store_version.
Proof. reflexivity. Qed.

(** C5, at the input where the code departs from it. A dataset stamped
    [1] through an [SSHRemoteIO] has its stamp on the remote filesystem
    only. Asked for object version [2] there, the check through [io] that
    the specification describes raises the conflict; the source, which
    asks the path itself, finds no file on the local filesystem, succeeds
    and overwrites the remote stamp. *)
Theorem create_ds_in_store_misses_remote_stamp :
  let vf := Sample.store / "abc" / "def" / "ria-layout-version" in
  let w1 := snd (create_ds_in_store SSHRemoteIO Sample.store "abcdef" "1" "1" Sample.fresh) in
  let run := create_ds_in_store SSHRemoteIO Sample.store "abcdef" "2" "1" w1 in
  files (remote_fs w1) !! vf = Some "1"
  ∧ files (local_fs w1) !! vf = None
  ∧ fst (create_ds_in_store_spec SSHRemoteIO Sample.store "abcdef" "2" "1" w1)
      = Raise (ValueError "Conflicting dataset layout version found at target: 1")
  ∧ fst run = Ok tt
  ∧ files (remote_fs (snd run)) !! vf = Some "2".
Proof. vm_compute. split_and!; reflexivity. Qed.

(** ** The order of the operations of the dataset initialiser *)

Lemma oplog_replay (w : World) (evs : list Event) :
  oplog (replay w evs) = (oplog w ++ evs)%list.
Proof.
  revert w; induction evs as [|ev evs IH]; intros w; simpl.
  - by rewrite app_nil_r.
  - unfold replay in IH. rewrite IH, oplog_do_event, <- app_assoc. done.
Qed.

Lemma new_events_none (w : World) : new_events w w = [].
Proof. apply drop_all. Qed.

Lemma new_events_replay (w : World) (evs : list Event) :
  new_events w (replay w evs) = evs.
Proof. unfold new_events. rewrite oplog_replay. apply drop_app_length. Qed.

(** [mkdir] provides the directory it is asked for. *)
Lemma in_with_parents (p : Path) : names p ≠ [] → p ∈ PyPath.with_parents p.
Proof.
  intros Hne. unfold PyPath.with_parents.
  apply list_elem_of_In, in_map_iff. exists (List.length (names p)). split.
  - destruct p as [r ns]; simpl. by rewrite take_ge.
  - apply in_seq. destruct (names p); [done|simpl; lia].
Qed.

Lemma mkdir_provides (p : Path) (fs : FS) : names p ≠ [] → p ∈ dirs (Fs.mkdir p fs).
Proof.
  intros Hne. simpl. apply elem_of_union_r, elem_of_list_to_set.
  by apply in_with_parents.
Qed.

(** C6. In every run of [create_ds_in_store]: the world reached is the
    one its recorded operations lead to; if a file is written at all, the
    operations are, in this order, the creation of the archive directory,
    the creation of the object directory and the write of the stamp; and
    in every world an observer of the [io] filesystem can see during the
    run, a stamp that is not the one the run started with comes with both
    directories. *)
Theorem create_ds_in_store_dirs_before_stamp (io : StorageIO) (base_path : Path)
    (dsid obj_version store_version : string) (w : World) :
  let repo := base_path / PyStr.slice_to 3 dsid / PyStr.slice_from 3 dsid in
  let w' := snd (create_ds_in_store io base_path dsid obj_version store_version w) in
  let evs := new_events w w' in
  w' = replay w evs
  ∧ (∀ (k : nat) (io' : StorageIO) (p : Path) (c : string),
       evs !! k = Some (EvWriteFile io' p c) →
       evs = [EvMkdir io (repo / "archives");
              EvMkdir io (repo / "annex" / "objects");
              EvWriteFile io (repo / "ria-layout-version") obj_version])
  ∧ (∀ s : World,
       s ∈ states_of_run w evs →
       files (io_fs io s) !! (repo / "ria-layout-version")
         ≠ files (io_fs io w) !! (repo / "ria-layout-version") →
       repo / "archives" ∈ dirs (io_fs io s)
       ∧ repo / "annex" / "objects" ∈ dirs (io_fs io s)).
Proof.
  intros repo w' evs. subst w' evs.
  destruct (create_ds_in_store_run io base_path dsid obj_version store_version w)
    as [[e ->]| ->]; cbn [snd].
  - rewrite new_events_none. split_and!; [done| |].
    + intros k io' p c Hk. by rewrite lookup_nil in Hk.
    + intros s Hs. apply list_elem_of_singleton in Hs as ->. done.
  - rewrite new_events_replay. split_and!; [done..|].
    intros s Hs Hstamp. unfold states_of_run, ds_events in Hs. simpl in Hs.
    fold repo in Hs.
    repeat (apply elem_of_cons in Hs as [-> | Hs]); [..|by apply elem_of_nil in Hs].
    + done.
    + exfalso. apply Hstamp. unfold replay; simpl. by rewrite io_fs_mkdir.
    + exfalso. apply Hstamp. unfold replay; simpl. by rewrite !io_fs_mkdir.
    + unfold replay; simpl. rewrite io_fs_write_file, !io_fs_mkdir. simpl. split.
      * apply elem_of_union_l, elem_of_union_r, elem_of_list_to_set, in_with_parents.
        rewrite div_archives. simpl. by destruct (names repo).
      * apply elem_of_union_r, elem_of_list_to_set, in_with_parents.
        rewrite div_annex_objects. simpl. by destruct (names repo).
Qed.

Lemma create_ds_in_store_dirs_before_stamp_witness :
  new_events Sample.fresh
    (snd (create_ds_in_store SSHRemoteIO Sample.store "abcdef" "2" " 1 " Sample.fresh))
  = [EvMkdir SSHRemoteIO (mkPath "/" ["store"; "abc"; "def"; "archives"]);
     EvMkdir SSHRemoteIO (mkPath "/" ["store"; "abc"; "def"; "annex"; "objects"]);
     EvWriteFile SSHRemoteIO (mkPath "/" ["store"; "abc"; "def"; "ria-layout-version"]) "2"].
Proof.
  destruct (create_ds_in_store_dirs_before_stamp
              SSHRemoteIO Sample.store "abcdef" "2" " 1 " Sample.fresh) as (_ & Horder & _).
  apply (Horder 2 SSHRemoteIO
           (mkPath "/" ["store"; "abc"; "def"; "ria-layout-version"]) "2").
  vm_compute. reflexivity.
Defined.

(** ** The URL verifier *)

(** C7, as the code has it. For every URL that is not empty and whose
    rewritten form parses with the scheme [ria+p], [p] being [ssh] or
    [file], and without a fragment, the verifier returns the host name
    when [p] is [ssh] and nothing otherwise, the path of the URL, and the
    rewritten URL. *)
Theorem verify_ria_url_decodes {Cfg : Type} {tools : UrlTools Cfg}
    (url : string) (cfg : Cfg) (p : string) :
  url ≠ "" →
  url_scheme (URL_parse (rewrite_url cfg url)) = "ria+" +:+ p →
  p = "ssh" ∨ p = "file" →
  url_fragment (URL_parse (rewrite_url cfg url)) = "" →
  verify_ria_url url cfg
    = Ok (if String.eqb p "ssh"
          then url_hostname (URL_parse (rewrite_url cfg url))
          else None,
          url_path (URL_parse (rewrite_url cfg url)),
          rewrite_url cfg url).
Proof.
  intros Hurl Hscheme Hp Hfrag. unfold verify_ria_url.
  destruct (String.eqb_spec url "") as [|_]; [done|].
  rewrite Hscheme, Hfrag.
  destruct Hp as [-> | ->]; reflexivity.
Qed.

Lemma verify_ria_url_decodes_witness :
  verify_ria_url (tools := Sample.url_tools) "ria+ssh://host.example/store/path" []
    = Ok (Some "host.example", "/store/path", "ria+ssh://host.example/store/path")
  ∧ verify_ria_url (tools := Sample.url_tools) "ria+file:///local/store" []
    = Ok (None, "/local/store", "ria+file:///local/store").
Proof.
  split.
  - apply (verify_ria_url_decodes (tools := Sample.url_tools)
             "ria+ssh://host.example/store/path" [] "ssh");
      [discriminate | reflexivity | by left | reflexivity].
  - apply (verify_ria_url_decodes (tools := Sample.url_tools)
             "ria+file:///local/store" [] "file");
      [discriminate | reflexivity | by right | reflexivity].
Defined.

(** C7 as stated fails at the empty URL: with a rewrite rule whose prefix
    is empty, its rewritten form is a well-formed [ria+ssh] URL without a
    fragment, and the verifier has refused the input before rewriting. *)
Lemma verify_ria_url_refuses_empty :
  let cfg := [("ria+ssh://host.example/store/path", "")] in
  let url_ri := Sample.parse_url (Sample.insteadof cfg "") in
  url_scheme url_ri = "ria+ssh"
  ∧ url_fragment url_ri = ""
  ∧ verify_ria_url (tools := Sample.url_tools) "" cfg = Raise (ValueError "Got no URL").
Proof. split_and!; reflexivity. Qed.

(** ** The archive shim *)

(** C8. When the target of [compress_files] exists and overwriting is
    forbidden, the call raises the conflict error in the world it started
    in: the target is still there and no process was run. When the target
    is an existing file and overwriting is allowed, the call is the run of
    the archiver in the world where the target has been unlinked, and the
    record shows the unlink before the run. Something that exists without
    being a file cannot be unlinked: that error too comes before any
    process is run. *)
Theorem compress_files_existing_target {tools : ArchTools}
    (srcs : list string) (archive : string) (path : option string) (w : ArchWorld) :
  let apath := PyPath.parse archive in
  Fs.exists_ apath (arch_fs w) = true →
  compress_files srcs archive path false w
    = (Raise (ValueError ("Target archive " +:+ PyPath.to_str apath
                          +:+ " already exists and overwrite is forbidden")), w)
  ∧ (∀ content : string,
       files (arch_fs w) !! apath = Some content →
       compress_files srcs archive path true w
         = runner_run path (compress_cmd srcs apath)
             (mkArchWorld (mkFS (delete apath (files (arch_fs w))) (dirs (arch_fs w)))
                          (arch_log w ++ [EvUnlink apath]))
       ∧ arch_log (snd (compress_files srcs archive path true w))
           = (arch_log w ++ [EvUnlink apath; EvRun path (compress_cmd srcs apath)])%list)
  ∧ (files (arch_fs w) !! apath = None →
     ∃ msg : string,
       compress_files srcs archive path true w = (Raise (OSError msg), w)).
Proof.
  intros apath Hex. split_and!.
  - unfold compress_files, mbind, ST_bind, apath_exists. fold apath.
    rewrite Hex. reflexivity.
  - intros content Hc.
    unfold compress_files, mbind, ST_bind, apath_exists, apath_unlink, Fs.unlink.
    fold apath. rewrite Hex, Hc. split; [reflexivity|].
    unfold runner_run; simpl. destruct (run_process _ _ _); simpl.
    by rewrite <- app_assoc.
  - intros Hc. eexists.
    unfold compress_files, mbind, ST_bind, apath_exists, apath_unlink, Fs.unlink.
    fold apath. rewrite Hex, Hc. reflexivity.
Qed.

Lemma compress_files_existing_target_witness :
  let w := mkArchWorld (Fs.write_text (PyPath.parse "out.7z") "old" Fs.empty) [] in
  compress_files (tools := Sample.arch_tools) ["a"; "b"] "out.7z" None false w
    = (Raise (ValueError "Target archive out.7z already exists and overwrite is forbidden"),
       w)
  ∧ arch_log (snd (compress_files (tools := Sample.arch_tools) ["a"; "b"] "out.7z" None true w))
    = [EvUnlink (PyPath.parse "out.7z");
       EvRun None (CmdArgs ["7z"; "u"; "out.7z"; "--"; "a"; "b"])].
Proof.
  intros w.
  destruct (compress_files_existing_target (tools := Sample.arch_tools)
              ["a"; "b"] "out.7z" None w) as (Hforbid & _ & _); [reflexivity|].
  split; [exact Hforbid | reflexivity].
Defined.

(** * Further properties of the code *)

(** ** What a fresh store looks like *)

Lemma in_with_parents_prefix (p : Path) (extra : list string) :
  names p ≠ [] → p ∈ PyPath.with_parents (mkPath (root p) (names p ++ extra)).
Proof.
  intros Hne. unfold PyPath.with_parents. simpl.
  apply list_elem_of_In, in_map_iff. exists (List.length (names p)). split.
  - destruct p as [r ns]; simpl. by rewrite take_app_length.
  - apply in_seq. rewrite length_app. destruct (names p); [done|simpl; lia].
Qed.

(** X1. A call of [create_store] with a known version at a place without
    a version file succeeds; afterwards the version file holds the version
    as given, the [error_logs] directory exists and so does the base
    directory itself. *)
Theorem create_store_fresh (io : StorageIO) (base_path : Path) (version : string)
    (w : World) :
  version ∈ known_versions_dst →
  Fs.exists_ (base_path / "ria-layout-version") (io_fs io w) = false →
  let w' := snd (create_store io base_path version w) in
  fst (create_store io base_path version w) = Ok tt
  ∧ files (io_fs io w') !! (base_path / "ria-layout-version") = Some version
  ∧ Fs.exists_ (base_path / "ria-layout-version") (io_fs io w') = true
  ∧ base_path / "error_logs" ∈ dirs (io_fs io w')
  ∧ (names base_path ≠ [] → base_path ∈ dirs (io_fs io w')).
Proof.
  intros Hv Hex w'. subst w'. rewrite (create_store_absent _ _ _ _ Hv Hex).
  cbn [fst snd]. unfold replay; cbn [foldl].
  assert (Hfile : files (io_fs io (do_event (do_event w (EvMkdir io (base_path / "error_logs")))
                    (EvWriteFile io (base_path / "ria-layout-version") version)))
                  !! (base_path / "ria-layout-version") = Some version)
    by apply read_after_write.
  split_and!; [done | done | by eapply exists_file | |].
  - rewrite io_fs_write_file, io_fs_mkdir. cbn [Fs.write_text Fs.mkdir dirs].
    apply elem_of_union_r, elem_of_list_to_set, in_with_parents.
    change (base_path / "error_logs")
      with (mkPath (root base_path) (names base_path ++ ["error_logs"])).
    simpl. by destruct (names base_path).
  - intros Hne. rewrite io_fs_write_file, io_fs_mkdir. cbn [Fs.write_text Fs.mkdir dirs].
    apply elem_of_union_r, elem_of_list_to_set.
    change (base_path / "error_logs")
      with (mkPath (root base_path) (names base_path ++ ["error_logs"])).
    by apply in_with_parents_prefix.
Qed.

Lemma create_store_fresh_witness :
  let w' := snd (create_store SSHRemoteIO Sample.store "1" Sample.fresh) in
  files (remote_fs w') !! (Sample.store / "ria-layout-version") = Some "1"
  ∧ Sample.store / "error_logs" ∈ dirs (remote_fs w')
  ∧ Sample.store ∈ dirs (remote_fs w').
Proof.
  intros w'.
  destruct (create_store_fresh SSHRemoteIO Sample.store "1" Sample.fresh)
    as (_ & Hfile & _ & Hlogs & Hbase); [by apply list_elem_of_here | reflexivity |].
  split_and!; [exact Hfile | exact Hlogs | apply Hbase; discriminate].
Defined.

(** ** What the store initialiser leaves alone *)

Lemma io_fs_do_event_other (io io' : StorageIO) (w : World) (ev : Event) :
  io' ≠ io →
  match ev with EvMkdir i _ | EvWriteFile i _ _ => i = io end →
  io_fs io' (do_event w ev) = io_fs io' w.
Proof. intros Hne Hev. destruct ev; subst; by destruct io, io'. Qed.

Lemma files_do_event (io : StorageIO) (w : World) (ev : Event) (p : Path) :
  match ev with EvMkdir _ _ => True | EvWriteFile _ q _ => q ≠ p end →
  files (io_fs io (do_event w ev)) !! p = files (io_fs io w) !! p.
Proof.
  intros Hev. destruct ev as [i q|i q c]; destruct io, i; simpl; try done;
    by rewrite lookup_insert_ne.
Qed.

Lemma dirs_do_event (io : StorageIO) (w : World) (ev : Event) :
  dirs (io_fs io w) ⊆ dirs (io_fs io (do_event w ev)).
Proof. destruct ev as [i q|i q c]; destruct io, i; simpl; set_solver. Qed.

(** X2. Whatever its outcome, a call of [create_store] leaves the
    filesystem of the other instance as it was, changes no file but the
    version file, and removes no directory. *)
Theorem create_store_frame (io : StorageIO) (base_path : Path) (version : string)
    (w : World) :
  let w' := snd (create_store io base_path version w) in
  (∀ io' : StorageIO, io' ≠ io → io_fs io' w' = io_fs io' w)
  ∧ (∀ p : Path, p ≠ base_path / "ria-layout-version" →
       files (io_fs io w') !! p = files (io_fs io w) !! p)
  ∧ dirs (io_fs io w) ⊆ dirs (io_fs io w').
Proof.
  intros w'. subst w'.
  destruct (create_store_run io base_path version w)
    as [[e ->]|[[-> _]|[-> _]]]; cbn [snd]; [done..|].
  unfold replay; cbn [foldl]. split_and!.
  - intros io' Hne. by rewrite !(io_fs_do_event_other io io') by done.
  - intros p Hp. by rewrite !files_do_event by done.
  - etrans; apply dirs_do_event.
Qed.

(** ** The checks of the dataset initialiser *)

(** What the version check of [create_ds_in_store] lets through: no
    file at the place of the stamp on the local filesystem, or one whose
    stripped text before the first bar is that of the requested version. *)
Lemma create_ds_in_store_ok (io : StorageIO) (base_path : Path)
    (dsid obj_version store_version : string) (w : World) :
  let vf := base_path / PyStr.slice_to 3 dsid / PyStr.slice_from 3 dsid
            / "ria-layout-version" in
  PyStr.to_int store_version = Ok 1%Z →
  obj_version ∈ known_versions_objt →
  Fs.exists_ vf (local_fs w) = false
  ∨ (∃ content, files (local_fs w) !! vf = Some content
       ∧ PyStr.strip (PyStr.split_head "|" content) = PyStr.split_head "|" obj_version) →
  create_ds_in_store io base_path dsid obj_version store_version w
    = (Ok tt, replay w (ds_events io base_path dsid obj_version)).
Proof.
  intros vf Hsv Hov%py_in_elem_of Hcheck.
  unfold create_ds_in_store, mbind at 1, ST_bind, lift. rewrite Hsv. simpl.
  rewrite Hov. simpl. fold vf.
  unfold mbind, ST_bind, path_exists, path_read_text, Fs.read_text.
  destruct Hcheck as [Hex | (content & Hc & Heq)].
  - rewrite Hex. reflexivity.
  - rewrite (exists_file _ _ _ Hc), Hc, Heq, String.eqb_refl. reflexivity.
Qed.

Lemma create_ds_in_store_ok_inv (io : StorageIO) (base_path : Path)
    (dsid obj_version store_version : string) (w w' : World) :
  let vf := base_path / PyStr.slice_to 3 dsid / PyStr.slice_from 3 dsid
            / "ria-layout-version" in
  create_ds_in_store io base_path dsid obj_version store_version w = (Ok tt, w') →
  PyStr.to_int store_version = Ok 1%Z
  ∧ obj_version ∈ known_versions_objt
  ∧ (Fs.exists_ vf (local_fs w) = false
     ∨ (∃ content, files (local_fs w) !! vf = Some content
          ∧ PyStr.strip (PyStr.split_head "|" content) = PyStr.split_head "|" obj_version))
  ∧ w' = replay w (ds_events io base_path dsid obj_version).
Proof.
  intros vf.
  unfold create_ds_in_store, mbind at 1, ST_bind, lift.
  destruct (PyStr.to_int store_version) as [v|e]; simpl.
  2: { destruct e; simpl; discriminate. }
  unfold get_layout_locations.
  destruct (Z.eqb_spec v 1) as [->|_]; simpl; [|discriminate].
  destruct (PyStr.py_in obj_version known_versions_objt) eqn:Hov; simpl; [|discriminate].
  apply py_in_elem_of in Hov. fold vf.
  unfold mbind, ST_bind, path_exists, path_read_text, Fs.read_text.
  destruct (Fs.exists_ vf (local_fs w)) eqn:Hex; simpl.
  - destruct (files (local_fs w) !! vf) as [content|] eqn:Hc; [|discriminate].
    destruct (String.eqb_spec (PyStr.strip (PyStr.split_head "|" content))
                              (PyStr.split_head "|" obj_version)) as [Heq|_];
      simpl; [|discriminate].
    intros [= <-]. split_and!; eauto.
  - intros [= <-]. split_and!; eauto.
Qed.

Lemma known_objt_prefix_stripped (obj_version : string) :
  obj_version ∈ known_versions_objt →
  PyStr.strip (PyStr.split_head "|" obj_version) = PyStr.split_head "|" obj_version.
Proof.
  unfold known_versions_objt. intros Hin.
  apply elem_of_cons in Hin as [->|Hin]; [reflexivity|].
  apply list_elem_of_singleton in Hin as ->. reflexivity.
Qed.

Lemma io_fs_replay_ds (io : StorageIO) (base_path : Path) (dsid obj_version : string)
    (w : World) :
  let repo := base_path / PyStr.slice_to 3 dsid / PyStr.slice_from 3 dsid in
  io_fs io (replay w (ds_events io base_path dsid obj_version))
  = Fs.write_text (repo / "ria-layout-version") obj_version
      (Fs.mkdir (repo / "annex" / "objects") (Fs.mkdir (repo / "archives") (io_fs io w))).
Proof.
  intros repo. unfold replay, ds_events; cbn [foldl]. fold repo.
  by rewrite io_fs_write_file, !io_fs_mkdir.
Qed.

Lemma known_objt_no_bar (obj_version : string) :
  obj_version ∈ known_versions_objt → free_of "|" obj_version = true.
Proof.
  unfold known_versions_objt. intros Hin.
  apply elem_of_cons in Hin as [->|Hin]; [reflexivity|].
  apply list_elem_of_singleton in Hin as ->. reflexivity.
Qed.

(** X3. Whenever [create_ds_in_store] returns, the store version read by
    [int] is 1 and the object version is a known one; in the filesystem
    of [io] the version file holds a stamp of the object version (its
    text before the first bar, stripped, is that of the object version),
    and the archive directory, the object directory and the [annex]
    directory above it exist. *)
Theorem create_ds_in_store_postcondition (io : StorageIO) (base_path : Path)
    (dsid obj_version store_version : string) (w w' : World) :
  create_ds_in_store io base_path dsid obj_version store_version w = (Ok tt, w') →
  let repo := base_path / PyStr.slice_to 3 dsid / PyStr.slice_from 3 dsid in
  PyStr.to_int store_version = Ok 1%Z
  ∧ obj_version ∈ known_versions_objt
  ∧ (∃ content : string,
       files (io_fs io w') !! (repo / "ria-layout-version") = Some content
       ∧ PyStr.strip (PyStr.split_head "|" content) = PyStr.split_head "|" obj_version)
  ∧ repo / "archives" ∈ dirs (io_fs io w')
  ∧ repo / "annex" / "objects" ∈ dirs (io_fs io w')
  ∧ repo / "annex" ∈ dirs (io_fs io w').
Proof.
  intros Hrun repo.
  apply create_ds_in_store_ok_inv in Hrun as (Hsv & Hov & _ & ->).
  rewrite io_fs_replay_ds. fold repo. cbn [Fs.write_text Fs.mkdir files dirs].
  split_and!; [done | done | | | |].
  - exists obj_version. split; [apply lookup_insert_eq|].
    by apply known_objt_prefix_stripped.
  - apply elem_of_union_l, elem_of_union_r, elem_of_list_to_set, in_with_parents.
    rewrite div_archives. simpl. by destruct (names repo).
  - apply elem_of_union_r, elem_of_list_to_set, in_with_parents.
    rewrite div_annex_objects. simpl. by destruct (names repo).
  - apply elem_of_union_r, elem_of_list_to_set.
    rewrite div_annex_objects.
    change (repo / "annex") with (mkPath (root repo) (names repo ++ ["annex"])).
    change (names repo ++ ["annex"; "objects"])%list
      with (names repo ++ ["annex"] ++ ["objects"])%list.
    rewrite app_assoc.
    apply (in_with_parents_prefix (mkPath (root repo) (names repo ++ ["annex"]))).
    simpl. by destruct (names repo).
Qed.

Lemma create_ds_in_store_postcondition_witness :
  let w' := snd (create_ds_in_store SSHRemoteIO Sample.store "abcdef" "2" "+1" Sample.fresh) in
  PyStr.to_int "+1" = Ok 1%Z
  ∧ (∃ content : string,
       files (remote_fs w') !! mkPath "/" ["store"; "abc"; "def"; "ria-layout-version"]
         = Some content
       ∧ PyStr.strip (PyStr.split_head "|" content) = "2")
  ∧ mkPath "/" ["store"; "abc"; "def"; "archives"] ∈ dirs (remote_fs w')
  ∧ mkPath "/" ["store"; "abc"; "def"; "annex"; "objects"] ∈ dirs (remote_fs w')
  ∧ mkPath "/" ["store"; "abc"; "def"; "annex"] ∈ dirs (remote_fs w').
Proof.
  intros w'.
  destruct (create_ds_in_store_postcondition
              SSHRemoteIO Sample.store "abcdef" "2" "+1" Sample.fresh w')
    as (Hint & _ & Hfile & Harch & Hobj & Hannex); [reflexivity|].
  split_and!; [exact Hint | exact Hfile | exact Harch | exact Hobj | exact Hannex].
Defined.

(** X4. Unlike the store initialiser, the dataset initialiser writes the
    stamp again when the stored version matches: a local version file whose
    stripped text before the first bar is that of the requested version is
    replaced by a stamp of the requested version that has no bar in it,
    so what followed the bar is gone. *)
Theorem create_ds_in_store_restamps (base_path : Path)
    (dsid obj_version store_version content : string) (w : World) :
  let vf := base_path / PyStr.slice_to 3 dsid / PyStr.slice_from 3 dsid
            / "ria-layout-version" in
  PyStr.to_int store_version = Ok 1%Z →
  obj_version ∈ known_versions_objt →
  files (local_fs w) !! vf = Some content →
  PyStr.strip (PyStr.split_head "|" content) = PyStr.split_head "|" obj_version →
  fst (create_ds_in_store LocalIO base_path dsid obj_version store_version w) = Ok tt
  ∧ ∃ stamp : string,
      files (local_fs (snd (create_ds_in_store LocalIO base_path dsid obj_version
                              store_version w))) !! vf = Some stamp
      ∧ PyStr.strip (PyStr.split_head "|" stamp) = PyStr.split_head "|" obj_version
      ∧ free_of "|" stamp = true.
Proof.
  intros vf Hsv Hov Hc Heq.
  rewrite (create_ds_in_store_ok LocalIO base_path dsid obj_version store_version w Hsv Hov)
    by (right; eauto).
  cbn [fst snd]. split; [done|]. exists obj_version. split_and!.
  - change (local_fs ?x) with (io_fs LocalIO x).
    rewrite io_fs_replay_ds. apply lookup_insert_eq.
  - by apply known_objt_prefix_stripped.
  - by apply known_objt_no_bar.
Qed.

Lemma create_ds_in_store_restamps_witness :
  let vf := mkPath "/" ["store"; "abc"; "def"; "ria-layout-version"] in
  let w := mkWorld (Fs.write_text vf "1 |some-config" Fs.empty) Fs.empty [] in
  fst (create_ds_in_store LocalIO Sample.store "abcdef" "1" "1" w) = Ok tt
  ∧ ∃ stamp : string,
      files (local_fs (snd (create_ds_in_store LocalIO Sample.store "abcdef" "1" "1" w)))
        !! vf = Some stamp
      ∧ PyStr.strip (PyStr.split_head "|" stamp) = "1"
      ∧ free_of "|" stamp = true.
Proof.
  intros vf w.
  apply (create_ds_in_store_restamps Sample.store "abcdef" "1" "1" "1 |some-config" w);
    [reflexivity | by apply list_elem_of_here | reflexivity | reflexivity].
Defined.

Lemma io_fs_replay_other (io io' : StorageIO) (base_path : Path)
    (dsid obj_version : string) (w : World) :
  io' ≠ io →
  io_fs io' (replay w (ds_events io base_path dsid obj_version)) = io_fs io' w.
Proof.
  intros Hne. unfold replay, ds_events; cbn [foldl].
  by rewrite !(io_fs_do_event_other io io') by done.
Qed.

(** X5. A call of [create_ds_in_store] that returned can be repeated: the
    second call returns too, performs its three operations again, and
    leaves both filesystems exactly as the first call left them. *)
Theorem create_ds_in_store_repeat (io : StorageIO) (base_path : Path)
    (dsid obj_version store_version : string) (w w1 : World) :
  create_ds_in_store io base_path dsid obj_version store_version w = (Ok tt, w1) →
  ∃ w2 : World,
    create_ds_in_store io base_path dsid obj_version store_version w1 = (Ok tt, w2)
    ∧ local_fs w2 = local_fs w1
    ∧ remote_fs w2 = remote_fs w1
    ∧ oplog w2 = (oplog w1 ++ ds_events io base_path dsid obj_version)%list.
Proof.
  intros Hrun.
  apply create_ds_in_store_ok_inv in Hrun as (Hsv & Hov & Hcheck & ->).
  set (w1 := replay w (ds_events io base_path dsid obj_version)).
  set (repo := base_path / PyStr.slice_to 3 dsid / PyStr.slice_from 3 dsid) in *.
  assert (Hstamp : files (io_fs io w1) !! (repo / "ria-layout-version") = Some obj_version).
  { subst w1. rewrite io_fs_replay_ds. apply lookup_insert_eq. }
  assert (Hcheck1 :
    Fs.exists_ (repo / "ria-layout-version") (local_fs w1) = false
    ∨ (∃ content, files (local_fs w1) !! (repo / "ria-layout-version") = Some content
         ∧ PyStr.strip (PyStr.split_head "|" content) = PyStr.split_head "|" obj_version)).
  { destruct io.
    - right. exists obj_version. split; [exact Hstamp|].
      by apply known_objt_prefix_stripped.
    - change (local_fs w1) with (io_fs LocalIO w1). subst w1.
      by rewrite io_fs_replay_other. }
  eexists. split; [by apply create_ds_in_store_ok|].
  assert (Hio : io_fs io (replay w1 (ds_events io base_path dsid obj_version))
                = io_fs io w1).
  { rewrite io_fs_replay_ds. fold repo. subst w1. rewrite io_fs_replay_ds. fold repo.
    unfold Fs.write_text, Fs.mkdir; cbn [files dirs].
    f_equal; [apply insert_insert_eq|].
    apply set_eq. intros x. rewrite !elem_of_union. tauto. }
  split_and!.
  - destruct io; [exact Hio|].
    change (local_fs ?x) with (io_fs LocalIO x). by rewrite io_fs_replay_other.
  - destruct io; [|exact Hio].
    change (remote_fs ?x) with (io_fs SSHRemoteIO x). by rewrite io_fs_replay_other.
  - apply oplog_replay.
Qed.

Lemma create_ds_in_store_repeat_witness :
  let w1 := snd (create_ds_in_store LocalIO Sample.store "abcdef" "2" "1" Sample.fresh) in
  ∃ w2 : World,
    create_ds_in_store LocalIO Sample.store "abcdef" "2" "1" w1 = (Ok tt, w2)
    ∧ local_fs w2 = local_fs w1
    ∧ remote_fs w2 = remote_fs w1
    ∧ oplog w2 = (oplog w1 ++ ds_events LocalIO Sample.store "abcdef" "2")%list.
Proof.
  intros w1.
  apply (create_ds_in_store_repeat LocalIO Sample.store "abcdef" "2" "1" Sample.fresh).
  reflexivity.
Defined.

(** X6. A store version that does not read as the integer 1 makes
    [create_ds_in_store] raise [UnknownLayoutVersion] in the world it
    started in, whatever the object version; when the text reads as
    another integer the message names that integer and the supported
    versions. *)
Theorem create_ds_in_store_bad_store_version (io : StorageIO) (base_path : Path)
    (dsid obj_version store_version : string) (w : World) :
  PyStr.to_int store_version ≠ Ok 1%Z →
  ∃ msg : string,
    create_ds_in_store io base_path dsid obj_version store_version w
      = (Raise (UnknownLayoutVersion msg), w)
    ∧ (∀ v : Z, PyStr.to_int store_version = Ok v →
         msg = "Unknown layout version: " +:+ PyStr.of_int v +:+ ". Supported: ['1']").
Proof.
  intros Hsv.
  unfold create_ds_in_store, mbind at 1, ST_bind, lift.
  destruct (PyStr.to_int store_version) as [v|e] eqn:Hint; simpl.
  - unfold get_layout_locations.
    destruct (Z.eqb_spec v 1) as [->|Hv]; [done|]. simpl.
    eexists. split; [reflexivity|]. by intros ? [= <-].
  - assert (∃ m, e = ValueError m) as [m ->].
    { unfold PyStr.to_int in Hint.
      repeat match type of Hint with
             | context [match ?x with _ => _ end] => destruct x
             end; simplify_eq; eauto. }
    simpl. eexists. split; [reflexivity|]. intros ? [=].
Qed.

Lemma create_ds_in_store_bad_store_version_witness :
  let w1 := snd (create_ds_in_store LocalIO Sample.store "abcdef" "1" "1" Sample.fresh) in
  ∃ msg : string,
    create_ds_in_store LocalIO Sample.store "abcdef" "9" "2" w1
      = (Raise (UnknownLayoutVersion msg), w1)
    ∧ (∀ v : Z, PyStr.to_int "2" = Ok v →
         msg = "Unknown layout version: " +:+ PyStr.of_int v +:+ ". Supported: ['1']").
Proof.
  intros w1.
  apply (create_ds_in_store_bad_store_version LocalIO Sample.store "abcdef" "9" "2" w1).
  discriminate.
Defined.

(** X7. With a store version that reads as 1, an object version outside
    the known ones makes [create_ds_in_store] raise
    [UnknownLayoutVersion], naming the version and both supported ones,
    in the world it started in; the version file is not consulted. *)
Theorem create_ds_in_store_unknown_obj_version (io : StorageIO) (base_path : Path)
    (dsid obj_version store_version : string) (w : World) :
  PyStr.to_int store_version = Ok 1%Z →
  obj_version ∉ known_versions_objt →
  create_ds_in_store io base_path dsid obj_version store_version w
    = (Raise (UnknownLayoutVersion
                ("Dataset layout version unknown: " +:+ obj_version
                 +:+ ". Supported: ['1', '2']")), w).
Proof.
  intros Hsv Hov.
  unfold create_ds_in_store, mbind at 1, ST_bind, lift. rewrite Hsv. simpl.
  destruct (PyStr.py_in obj_version known_versions_objt) eqn:E; [|reflexivity].
  by apply py_in_elem_of in E.
Qed.

Lemma create_ds_in_store_unknown_obj_version_witness :
  create_ds_in_store LocalIO Sample.store "abcdef" "9" "1" Sample.fresh
    = (Raise (UnknownLayoutVersion
                "Dataset layout version unknown: 9. Supported: ['1', '2']"), Sample.fresh).
Proof.
  apply (create_ds_in_store_unknown_obj_version LocalIO Sample.store "abcdef" "9" "1");
    [reflexivity|].
  intros Hin. apply py_in_elem_of in Hin. discriminate.
Defined.

(** X8. With valid versions, a version file on the local filesystem whose
    stripped text before the first bar differs from that of the requested
    object version makes [create_ds_in_store] raise the conflict error,
    which reports the stored version, in the world it started in; this
    holds for either [io]. *)
Theorem create_ds_in_store_conflict (io : StorageIO) (base_path : Path)
    (dsid obj_version store_version content : string) (w : World) :
  let vf := base_path / PyStr.slice_to 3 dsid / PyStr.slice_from 3 dsid
            / "ria-layout-version" in
  PyStr.to_int store_version = Ok 1%Z →
  obj_version ∈ known_versions_objt →
  files (local_fs w) !! vf = Some content →
  PyStr.strip (PyStr.split_head "|" content) ≠ PyStr.split_head "|" obj_version →
  create_ds_in_store io base_path dsid obj_version store_version w
    = (Raise (ValueError ("Conflicting dataset layout version found at target: "
                          +:+ PyStr.strip (PyStr.split_head "|" content))), w).
Proof.
  intros vf Hsv Hov%py_in_elem_of Hc Hne.
  unfold create_ds_in_store, mbind at 1, ST_bind, lift. rewrite Hsv. simpl.
  rewrite Hov. simpl. fold vf.
  unfold mbind, ST_bind, path_exists, path_read_text, Fs.read_text.
  rewrite (exists_file _ _ _ Hc), Hc.
  by destruct (String.eqb_spec (PyStr.strip (PyStr.split_head "|" content))
                               (PyStr.split_head "|" obj_version)).
Qed.

Lemma create_ds_in_store_conflict_witness :
  let w1 := snd (create_ds_in_store LocalIO Sample.store "abcdef" "1" "1" Sample.fresh) in
  create_ds_in_store SSHRemoteIO Sample.store "abcdef" "2" "1" w1
    = (Raise (ValueError "Conflicting dataset layout version found at target: 1"), w1).
Proof.
  intros w1.
  apply (create_ds_in_store_conflict SSHRemoteIO Sample.store "abcdef" "2" "1" "1" w1);
    [reflexivity | by apply list_elem_of_further, list_elem_of_here
     | reflexivity | discriminate].
Defined.

(** X9. Whatever its outcome, a call of [create_ds_in_store] leaves the
    filesystem of the other instance as it was, changes no file but the
    version file of the dataset, and removes no directory. *)
Theorem create_ds_in_store_frame (io : StorageIO) (base_path : Path)
    (dsid obj_version store_version : string) (w : World) :
  let vf := base_path / PyStr.slice_to 3 dsid / PyStr.slice_from 3 dsid
            / "ria-layout-version" in
  let w' := snd (create_ds_in_store io base_path dsid obj_version store_version w) in
  (∀ io' : StorageIO, io' ≠ io → io_fs io' w' = io_fs io' w)
  ∧ (∀ p : Path, p ≠ vf → files (io_fs io w') !! p = files (io_fs io w) !! p)
  ∧ dirs (io_fs io w) ⊆ dirs (io_fs io w').
Proof.
  intros vf w'. subst w'.
  destruct (create_ds_in_store_run io base_path dsid obj_version store_version w)
    as [[e ->]| ->]; cbn [snd]; [done|].
  split_and!.
  - intros io' Hne. by apply io_fs_replay_other.
  - intros p Hp. unfold replay, ds_events; cbn [foldl].
    by rewrite !files_do_event by done.
  - unfold replay, ds_events; cbn [foldl].
    etrans; [|apply dirs_do_event]. etrans; apply dirs_do_event.
Qed.

(** ** Dataset ids and the directories they get *)

#[local] Arguments PyStr.slice_to : simpl nomatch.
#[local] Arguments PyStr.slice_from : simpl nomatch.

Lemma free_of_cons (c d : ascii) (s : string) :
  free_of c (String d s) = true ↔ Ascii.eqb d c = false ∧ free_of c s = true.
Proof.
  unfold free_of, PyStr.has_char. simpl.
  rewrite negb_true_iff, orb_false_iff, negb_true_iff, (Ascii.eqb_sym c d). done.
Qed.

Lemma split_free (c : ascii) (s : string) :
  free_of c s = true → PyStr.split c s = [s].
Proof.
  induction s as [|d s IH]; [done|].
  intros [Hd Hs]%free_of_cons. simpl. rewrite Hd, (IH Hs). done.
Qed.

Lemma free_of_slice_to (c : ascii) (n : nat) (s : string) :
  free_of c s = true → free_of c (PyStr.slice_to n s) = true.
Proof.
  revert n; induction s as [|d s IH]; intros [|n]; try done.
  intros [Hd Hs]%free_of_cons. simpl. apply free_of_cons. auto.
Qed.

Lemma free_of_slice_from (c : ascii) (n : nat) (s : string) :
  free_of c s = true → free_of c (PyStr.slice_from n s) = true.
Proof.
  revert n; induction s as [|d s IH]; intros [|n]; try done.
  intros [Hd Hs]%free_of_cons. simpl. auto.
Qed.

(** A text without a slash that is neither empty nor a single dot is one
    relative name. *)
Lemma parse_name (s : string) :
  free_of "/" s = true → s ≠ "" → s ≠ "." → PyPath.parse s = mkPath "" [s].
Proof.
  intros Hfree Hne Hdot. unfold PyPath.parse, PyPath.splitroot.
  destruct s as [|d s]; [done|].
  pose proof Hfree as [Hd _]%free_of_cons.
  cbn [PyPath.count_leading]. rewrite Hd. cbn [PyStr.slice_from].
  rewrite (split_free _ _ Hfree). cbn [List.filter]. unfold PyPath.keep_name.
  destruct (String.eqb_spec (String d s) "") as [|_]; [done|].
  destruct (String.eqb_spec (String d s) ".") as [|_]; [done|]. done.
Qed.

Lemma div_name (p : Path) (s : string) :
  free_of "/" s = true → s ≠ "" → s ≠ "." →
  p / s = mkPath (root p) (names p ++ [s]).
Proof. intros H1 H2 H3. unfold PyPath.div. by rewrite (parse_name s H1 H2 H3). Qed.

Lemma slice_to_3_name (dsid : string) :
  (3 ≤ String.length dsid)%nat →
  PyStr.slice_to 3 dsid ≠ "" ∧ PyStr.slice_to 3 dsid ≠ ".".
Proof.
  destruct dsid as [|a [|b [|c s]]]; simpl; try lia. intros _. split; discriminate.
Qed.

Lemma slice_from_3_nonempty (dsid : string) :
  (4 ≤ String.length dsid)%nat → PyStr.slice_from 3 dsid ≠ "".
Proof.
  destruct dsid as [|a [|b [|c [|d s]]]]; simpl; try lia. intros _. discriminate.
Qed.

Lemma repo_of_plain_id (base_path : Path) (dsid : string) :
  free_of "/" dsid = true →
  (4 ≤ String.length dsid)%nat →
  PyStr.slice_from 3 dsid ≠ "." →
  base_path / PyStr.slice_to 3 dsid / PyStr.slice_from 3 dsid
  = mkPath (root base_path)
           (names base_path ++ [PyStr.slice_to 3 dsid; PyStr.slice_from 3 dsid]).
Proof.
  intros Hfree Hlen Hdot.
  destruct (slice_to_3_name dsid) as [Hp1 Hp2]; [lia|].
  pose proof (slice_from_3_nonempty dsid Hlen) as Hr.
  rewrite (div_name base_path _ (free_of_slice_to _ 3 _ Hfree) Hp1 Hp2).
  rewrite (div_name _ _ (free_of_slice_from _ 3 _ Hfree) Hr Hdot).
  cbn [root names]. by rewrite <- app_assoc.
Qed.

Lemma slice_to_length (n : nat) (s : string) :
  String.length (PyStr.slice_to n s) = Nat.min n (String.length s).
Proof.
  revert n; induction s as [|c s IH]; intros [|n]; try done.
  cbn [PyStr.slice_to String.length Nat.min]. by rewrite IH.
Qed.

(** C3. For version 1, every base path and every dataset id, the id
    splits into its first three characters (all of it when it is shorter)
    and the remainder, and the resolver returns the repository directory
    [base / prefix / remainder], its [archives] directory and its
    [annex/objects] directory. The latter two are the repository
    directory extended by exactly those names, and for an id of at least
    four characters without a slash whose remainder is not a single dot
    the repository directory is the base path extended by exactly the
    prefix and the remainder. The resolver is a function of its three
    arguments: it is given no world to read or to change. *)
Theorem get_layout_locations_v1 (base_path : Path) (dsid : string) :
  ∃ prefix remainder : string,
    dsid = prefix +:+ remainder
    ∧ String.length prefix = Nat.min 3 (String.length dsid)
    ∧ let repo := base_path / prefix / remainder in
      get_layout_locations 1 base_path dsid
        = Ok (repo, repo / "archives", repo / "annex" / "objects")
      ∧ repo / "archives" = mkPath (root repo) (names repo ++ ["archives"])
      ∧ repo / "annex" / "objects"
          = mkPath (root repo) (names repo ++ ["annex"; "objects"])
      ∧ (free_of "/" dsid = true →
         (4 ≤ String.length dsid)%nat →
         remainder ≠ "." →
         repo = mkPath (root base_path) (names base_path ++ [prefix; remainder])).
Proof.
  exists (PyStr.slice_to 3 dsid), (PyStr.slice_from 3 dsid).
  split; [|split]; [| |cbv zeta; split_and!].
  - symmetry. apply slice_to_from.
  - apply slice_to_length.
  - reflexivity.
  - apply div_archives.
  - apply div_annex_objects.
  - intros Hfree Hlen Hdot. by apply repo_of_plain_id.
Qed.

Lemma get_layout_locations_v1_witness :
  get_layout_locations 1 Sample.store "abcdef"
    = Ok (mkPath "/" ["store"; "abc"; "def"],
          mkPath "/" ["store"; "abc"; "def"; "archives"],
          mkPath "/" ["store"; "abc"; "def"; "annex"; "objects"]).
Proof.
  destruct (get_layout_locations_v1 Sample.store "abcdef")
    as (prefix & remainder & Happ & Hlen & Hres & _).
  destruct prefix as [|a [|b [|c [|d prefix]]]]; try discriminate Hlen.
  injection Happ as Ha Hb Hc Hr.
  change ("" +:+ remainder) with remainder in Hr. subst a b c remainder.
  exact Hres.
Defined.

(** X10. For a dataset id of at least four characters without a slash
    whose remainder is not a single dot, the repository directory is the
    base path extended by exactly two names, the first three characters
    and the rest; the archive and object directories lie below it. *)
Theorem get_layout_locations_plain_id (base_path : Path) (dsid : string) :
  free_of "/" dsid = true →
  (4 ≤ String.length dsid)%nat →
  PyStr.slice_from 3 dsid ≠ "." →
  let two := [PyStr.slice_to 3 dsid; PyStr.slice_from 3 dsid] in
  get_layout_locations 1 base_path dsid
    = Ok (mkPath (root base_path) (names base_path ++ two),
          mkPath (root base_path) (names base_path ++ two ++ ["archives"]),
          mkPath (root base_path) (names base_path ++ two ++ ["annex"; "objects"])).
Proof.
  intros Hfree Hlen Hdot two. subst two.
  unfold get_layout_locations. cbn [Z.eqb Pos.eqb].
  rewrite (repo_of_plain_id base_path dsid Hfree Hlen Hdot).
  rewrite div_archives, div_annex_objects. cbn [root names].
  by rewrite <- !app_assoc.
Qed.

Lemma get_layout_locations_plain_id_witness :
  get_layout_locations 1 Sample.store "8d0aa4b7-c3ac"
    = Ok (mkPath "/" ["store"; "8d0"; "aa4b7-c3ac"],
          mkPath "/" ["store"; "8d0"; "aa4b7-c3ac"; "archives"],
          mkPath "/" ["store"; "8d0"; "aa4b7-c3ac"; "annex"; "objects"]).
Proof.
  apply (get_layout_locations_plain_id Sample.store "8d0aa4b7-c3ac");
    [reflexivity | simpl; lia | discriminate].
Defined.

(** X11. Two different dataset ids of that kind are given different
    repository directories under one base path. *)
Theorem get_layout_locations_injective (base_path : Path) (d1 d2 : string)
    (l1 l2 : Path * Path * Path) :
  free_of "/" d1 = true → (4 ≤ String.length d1)%nat → PyStr.slice_from 3 d1 ≠ "." →
  free_of "/" d2 = true → (4 ≤ String.length d2)%nat → PyStr.slice_from 3 d2 ≠ "." →
  get_layout_locations 1 base_path d1 = Ok l1 →
  get_layout_locations 1 base_path d2 = Ok l2 →
  d1 ≠ d2 →
  fst (fst l1) ≠ fst (fst l2).
Proof.
  intros F1 L1 D1 F2 L2 D2.
  unfold get_layout_locations. cbn [Z.eqb Pos.eqb].
  rewrite (repo_of_plain_id base_path d1 F1 L1 D1).
  rewrite (repo_of_plain_id base_path d2 F2 L2 D2).
  intros [= <-] [= <-] Hne. cbn [fst]. intros [= Heq]. apply Hne.
  apply app_inv_head in Heq. injection Heq as Hto Hfrom.
  rewrite <- (slice_to_from 3 d1), <- (slice_to_from 3 d2). by rewrite Hto, Hfrom.
Qed.

Lemma get_layout_locations_injective_witness :
  bool_decide (mkPath "/" ["store"; "8d0"; "aa4b7"] = mkPath "/" ["store"; "8d0"; "aa4b8"])
  = false.
Proof.
  apply bool_decide_eq_false.
  apply (get_layout_locations_injective Sample.store "8d0aa4b7" "8d0aa4b8"
           (mkPath "/" ["store"; "8d0"; "aa4b7"],
            mkPath "/" ["store"; "8d0"; "aa4b7"; "archives"],
            mkPath "/" ["store"; "8d0"; "aa4b7"; "annex"; "objects"])
           (mkPath "/" ["store"; "8d0"; "aa4b8"],
            mkPath "/" ["store"; "8d0"; "aa4b8"; "archives"],
            mkPath "/" ["store"; "8d0"; "aa4b8"; "annex"; "objects"]));
    try reflexivity; try discriminate; simpl; lia.
Defined.

Lemma parse_rooted (s : string) :
  PyStr.startswith "/" s = true → root (PyPath.parse s) ≠ "".
Proof.
  destruct s as [|c s]; [done|]. unfold PyStr.startswith; simpl.
  destruct (Ascii.eqb_spec "/"%char c) as [<-|Hc].
  2: { destruct c as [[] [] [] [] [] [] [] []]; try done. }
  intros _. unfold PyPath.parse, PyPath.splitroot. cbn [PyPath.count_leading].
  rewrite Ascii.eqb_refl.
  destruct (PyPath.count_leading "/" s) as [|[|k]]; simpl; discriminate.
Qed.

(** X12. A dataset id whose fourth character is a slash leaves the store:
    its remainder is a rooted path, which replaces everything before it,
    so the three directories are the same whatever the base path and the
    repository directory is rooted. *)
Theorem get_layout_locations_rooted_remainder (base_path other_base : Path) (dsid : string) :
  PyStr.startswith "/" (PyStr.slice_from 3 dsid) = true →
  get_layout_locations 1 base_path dsid = get_layout_locations 1 other_base dsid
  ∧ ∃ repo archive_dir dsobj_dir,
      get_layout_locations 1 base_path dsid = Ok (repo, archive_dir, dsobj_dir)
      ∧ repo = PyPath.parse (PyStr.slice_from 3 dsid)
      ∧ root repo ≠ "".
Proof.
  intros Hroot%parse_rooted.
  assert (Hdiv : ∀ p : Path, p / PyStr.slice_from 3 dsid
                             = PyPath.parse (PyStr.slice_from 3 dsid)).
  { intros p. unfold PyPath.div.
    by destruct (String.eqb_spec (root (PyPath.parse (PyStr.slice_from 3 dsid))) ""). }
  unfold get_layout_locations. cbn [Z.eqb Pos.eqb]. rewrite !Hdiv.
  split; [done|]. eexists _, _, _. split_and!; [reflexivity | reflexivity | exact Hroot].
Qed.

Lemma get_layout_locations_rooted_remainder_witness :
  get_layout_locations 1 Sample.store "abc/etc"
    = get_layout_locations 1 (PyPath.parse "/elsewhere") "abc/etc"
  ∧ ∃ repo archive_dir dsobj_dir,
      get_layout_locations 1 Sample.store "abc/etc" = Ok (repo, archive_dir, dsobj_dir)
      ∧ repo = PyPath.parse (PyStr.slice_from 3 "abc/etc")
      ∧ root repo ≠ "".
Proof.
  apply (get_layout_locations_rooted_remainder
           Sample.store (PyPath.parse "/elsewhere") "abc/etc").
  reflexivity.
Defined.

(** ** When the URL verifier accepts *)

Lemma prefix_slice (p s : string) :
  String.prefix p s = true → s = p +:+ PyStr.slice_from (String.length p) s.
Proof.
  revert s; induction p as [|c p IH]; intros s; [by destruct s|].
  destruct s as [|d s]; simpl; [done|].
  destruct (ascii_dec c d) as [->|]; [|done].
  intros Hp. exact (f_equal (String d) (IH s Hp)).
Qed.

Lemma verify_ria_url_ok_inv {Cfg : Type} {tools : UrlTools Cfg}
    (url : string) (cfg : Cfg) (r : option string * string * string) :
  verify_ria_url url cfg = Ok r →
  let url_ri := URL_parse (rewrite_url cfg url) in
  url ≠ ""
  ∧ PyStr.startswith "ria+" (url_scheme url_ri) = true
  ∧ url_fragment url_ri = ""
  ∧ (PyStr.slice_from 4 (url_scheme url_ri) = "ssh"
     ∨ PyStr.slice_from 4 (url_scheme url_ri) = "file")
  ∧ r = (if String.eqb (PyStr.slice_from 4 (url_scheme url_ri)) "ssh"
         then url_hostname url_ri else None,
         url_path url_ri, rewrite_url cfg url).
Proof.
  unfold verify_ria_url.
  destruct (String.eqb_spec url "") as [|Hurl]; [done|].
  destruct (PyStr.startswith "ria+" _) eqn:Hpre; [|done].
  destruct (String.eqb_spec (url_fragment (URL_parse (rewrite_url cfg url))) "")
    as [Hfrag|]; [|done].
  destruct (PyStr.py_in _ _) eqn:Hin; [|done]. cbn [negb].
  intros [= <-]. split_and!; try done.
  unfold PyStr.py_in in Hin. cbn [existsb] in Hin.
  rewrite orb_false_r in Hin. apply orb_true_iff in Hin.
  by rewrite !String.eqb_eq in Hin.
Qed.

(** X13. The verifier accepts a URL exactly when it is not empty and its
    rewritten form parses with a scheme that is [ria+ssh] or [ria+file]
    and with no fragment. *)
Theorem verify_ria_url_accepts_iff {Cfg : Type} {tools : UrlTools Cfg}
    (url : string) (cfg : Cfg) :
  let url_ri := URL_parse (rewrite_url cfg url) in
  (∃ r, verify_ria_url url cfg = Ok r)
  ↔ url ≠ ""
    ∧ (url_scheme url_ri = "ria+ssh" ∨ url_scheme url_ri = "ria+file")
    ∧ url_fragment url_ri = "".
Proof.
  intros url_ri. split.
  - intros [r Hr]. apply verify_ria_url_ok_inv in Hr as (Hurl & Hpre & Hfrag & Hp & _).
    fold url_ri in Hpre, Hfrag, Hp. split_and!; [done| |done].
    apply prefix_slice in Hpre. cbn [String.length] in Hpre.
    destruct Hp as [Hp|Hp]; rewrite Hp in Hpre; auto.
  - intros (Hurl & Hscheme & Hfrag).
    unfold verify_ria_url. fold url_ri.
    destruct (String.eqb_spec url "") as [|_]; [done|].
    rewrite Hfrag. destruct Hscheme as [-> | ->]; eexists; reflexivity.
Qed.

(** X14. On success the third component is the rewritten URL and the
    second its path; the host is the host name of the URL for the scheme
    [ria+ssh], and for [ria+file] there is none, whatever host the URL
    names. *)
Theorem verify_ria_url_result {Cfg : Type} {tools : UrlTools Cfg}
    (url : string) (cfg : Cfg) (host : option string) (base_path rewritten : string) :
  verify_ria_url url cfg = Ok (host, base_path, rewritten) →
  rewritten = rewrite_url cfg url
  ∧ base_path = url_path (URL_parse rewritten)
  ∧ (url_scheme (URL_parse rewritten) = "ria+ssh"
       ∧ host = url_hostname (URL_parse rewritten)
     ∨ url_scheme (URL_parse rewritten) = "ria+file" ∧ host = None).
Proof.
  intros Hr. apply verify_ria_url_ok_inv in Hr as (_ & Hpre & _ & Hp & Hr).
  injection Hr as -> -> ->. split_and!; [done..|].
  apply prefix_slice in Hpre. cbn [String.length] in Hpre.
  destruct Hp as [Hp|Hp]; rewrite Hp in *; auto.
Qed.

Lemma verify_ria_url_result_witness :
  let url := "ria+file://ignored.example/local/store" in
  verify_ria_url (tools := Sample.url_tools) url [] = Ok (None, "/local/store", url)
  ∧ url_scheme (Sample.parse_url url) = "ria+file"
  ∧ url_hostname (Sample.parse_url url) = Some "ignored.example"
  ∧ "/local/store" = url_path (Sample.parse_url url).
Proof.
  intros url.
  destruct (verify_ria_url_result (tools := Sample.url_tools) url []
              None "/local/store" url) as (_ & Hpath & _); [reflexivity|].
  split_and!; [reflexivity | reflexivity | reflexivity | exact Hpath].
Defined.

(** X15. Every error of the verifier is a [ValueError]. *)
Theorem verify_ria_url_raises_ValueError {Cfg : Type} {tools : UrlTools Cfg}
    (url : string) (cfg : Cfg) (e : PyExc) :
  verify_ria_url url cfg = Raise e → ∃ msg : string, e = ValueError msg.
Proof.
  unfold verify_ria_url.
  repeat match goal with
         | |- context [if ?b then _ else _] => destruct b
         end; intros [= <-]; eauto.
Qed.

Lemma verify_ria_url_raises_ValueError_witness :
  verify_ria_url (tools := Sample.url_tools) "ria+ssh://host/store#frag" []
    = Raise (ValueError "Unexpected fragment in RIA-store URL: frag")
  ∧ ∃ msg : string, ValueError "Unexpected fragment in RIA-store URL: frag" = ValueError msg.
Proof.
  split; [reflexivity|].
  apply (verify_ria_url_raises_ValueError (tools := Sample.url_tools)
           "ria+ssh://host/store#frag" []).
  reflexivity.
Defined.

(** ** What the archive shim does to the filesystem *)

(** X16. When the target does not exist, [compress_files] unlinks nothing
    and is the run of the archiver in the world it started in, whether
    overwriting is allowed or not. *)
Theorem compress_files_absent_target {tools : ArchTools}
    (srcs : list string) (archive : string) (path : option string) (overwrite : bool)
    (w : ArchWorld) :
  let apath := PyPath.parse archive in
  Fs.exists_ apath (arch_fs w) = false →
  compress_files srcs archive path overwrite w
    = runner_run path (compress_cmd srcs apath) w
  ∧ arch_log (snd (compress_files srcs archive path overwrite w))
    = (arch_log w ++ [EvRun path (compress_cmd srcs apath)])%list.
Proof.
  intros apath Hex.
  assert (Hrun : compress_files srcs archive path overwrite w
                 = runner_run path (compress_cmd srcs apath) w).
  { unfold compress_files, mbind, ST_bind, apath_exists. fold apath. by rewrite Hex. }
  split; [exact Hrun|]. rewrite Hrun. unfold runner_run.
  by destruct (run_process _ _ _).
Qed.

Lemma compress_files_absent_target_witness :
  let w := mkArchWorld Fs.empty [] in
  compress_files (tools := Sample.arch_tools) ["a"] "out.7z" (Some "/tmp") false w
    = compress_files (tools := Sample.arch_tools) ["a"] "out.7z" (Some "/tmp") true w
  ∧ arch_log (snd (compress_files (tools := Sample.arch_tools) ["a"] "out.7z"
                     (Some "/tmp") false w))
    = [EvRun (Some "/tmp") (CmdArgs ["7z"; "u"; "out.7z"; "--"; "a"])].
Proof.
  intros w.
  destruct (compress_files_absent_target (tools := Sample.arch_tools)
              ["a"] "out.7z" (Some "/tmp") false w) as [Hf Hlog]; [reflexivity|].
  destruct (compress_files_absent_target (tools := Sample.arch_tools)
              ["a"] "out.7z" (Some "/tmp") true w) as [Ht _]; [reflexivity|].
  split; [by rewrite Hf, Ht | exact Hlog].
Defined.

(** X17. Whatever its arguments and the world, a call of [compress_files]
    adds to the record nothing, or the one run of the archiver, or the
    unlinking of the target followed by that run; the unlinking happens
    only when overwriting is allowed, and never a process runs after an
    error of the call itself. *)
Theorem compress_files_operations {tools : ArchTools}
    (srcs : list string) (archive : string) (path : option string) (overwrite : bool)
    (w : ArchWorld) :
  let apath := PyPath.parse archive in
  let run := EvRun path (compress_cmd srcs apath) in
  let w' := snd (compress_files srcs archive path overwrite w) in
  (w' = w ∧ ∃ e, fst (compress_files srcs archive path overwrite w) = Raise e)
  ∨ arch_log w' = (arch_log w ++ [run])%list
  ∨ (overwrite = true ∧ arch_log w' = (arch_log w ++ [EvUnlink apath; run])%list).
Proof.
  intros apath run w'. subst w' run.
  unfold compress_files, mbind, ST_bind, apath_exists, apath_unlink, Fs.unlink.
  fold apath.
  destruct (Fs.exists_ apath (arch_fs w)).
  - destruct overwrite.
    + destruct (files (arch_fs w) !! apath).
      * right; right. split; [done|]. unfold runner_run; cbn [arch_fs arch_log].
        destruct (run_process _ _ _). cbn [snd arch_log]. by rewrite <- app_assoc.
      * left. cbn [fst snd]. eauto.
    + left. cbn [fst snd]. eauto.
  - right; left. unfold mret, ST_ret, runner_run. cbn beta iota.
    by destruct (run_process _ _ _).
Qed.

(** ** Which archives go through tar *)

Lemma free_of_app (c : ascii) (a b : string) :
  free_of c (a +:+ b) = true ↔ free_of c a = true ∧ free_of c b = true.
Proof.
  induction a as [|d a IH]; [by cbn; intuition|].
  change (String d a +:+ b) with (String d (a +:+ b)).
  rewrite !free_of_cons, IH. tauto.
Qed.

Lemma split_app_sep (c : ascii) (a b : string) :
  free_of c a = true → PyStr.split c (a +:+ String c b) = a :: PyStr.split c b.
Proof.
  induction a as [|d a IH].
  - intros _. change ("" +:+ String c b) with (String c b).
    cbn [PyStr.split]. by rewrite Ascii.eqb_refl.
  - intros [Hd Ha]%free_of_cons.
    change (String d a +:+ String c b) with (String d (a +:+ String c b)).
    cbn [PyStr.split]. rewrite Hd, (IH Ha). done.
Qed.

Lemma slice_last (c : ascii) (s : string) :
  PyStr.slice_from (String.length (String c s) - 1) (String c s)
  = match s with
    | "" => String c ""
    | String _ _ => PyStr.slice_from (String.length s - 1) s
    end.
Proof.
  destruct s as [|d s]; [done|].
  cbn [String.length]. rewrite !Nat.sub_succ, !Nat.sub_0_r. done.
Qed.

Lemma endswith_dot_free (s : string) :
  free_of "." s = true → PyStr.endswith "." s = false.
Proof.
  unfold PyStr.endswith. intros Hfree. apply andb_false_iff. left.
  induction s as [|c s IH]; [done|].
  apply free_of_cons in Hfree as [Hc Hs]. rewrite slice_last.
  destruct s as [|d s]; [|by apply IH].
  cbn. by rewrite Hc.
Qed.

Lemma endswith_dot_app (a b : string) :
  b ≠ "" → PyStr.endswith "." (a +:+ b) = PyStr.endswith "." b.
Proof.
  intros Hb. unfold PyStr.endswith.
  assert (Hslice : PyStr.slice_from (String.length (a +:+ b) - 1) (a +:+ b)
                   = PyStr.slice_from (String.length b - 1) b).
  { induction a as [|c a IH]; [done|].
    change (String c a +:+ b) with (String c (a +:+ b)). rewrite slice_last.
    destruct (a +:+ b) eqn:E; [|exact IH].
    destruct a; [change ("" +:+ b) with b in E; congruence | discriminate]. }
  change (String.length ".") with 1%nat. rewrite Hslice. f_equal.
  destruct b as [|d b]; [done|]. by destruct a.
Qed.

Lemma plain_part_spec (s : string) :
  plain_part s = true ↔ free_of "/" s = true ∧ free_of "." s = true ∧ s ≠ "".
Proof.
  unfold plain_part. rewrite !andb_true_iff, negb_true_iff.
  destruct (String.eqb_spec s ""); intuition congruence.
Qed.

Lemma join_cons (sep x y : string) (l : list string) :
  PyStr.join sep (x :: y :: l) = x +:+ sep +:+ PyStr.join sep (y :: l).
Proof. reflexivity. Qed.

Lemma join_plain (parts : list string) :
  parts ≠ [] → Forall (λ x, plain_part x = true) parts →
  let name := PyStr.join "." parts in
  name ≠ ""
  ∧ free_of "/" name = true
  ∧ PyStr.endswith "." name = false
  ∧ PyStr.split "." name = parts.
Proof.
  intros Hne Hall. induction Hall as [|x l Hx Hl IH]; [done|]. clear Hne.
  apply plain_part_spec in Hx as (Hx1 & Hx2 & Hx3).
  destruct l as [|y l].
  - cbn [PyStr.join]. split_and!; [done | done | by apply endswith_dot_free
                                   | by apply split_free].
  - destruct IH as (IH1 & IH2 & IH3 & IH4); [done|].
    cbv zeta. rewrite join_cons. set (rest := PyStr.join "." (y :: l)) in *.
    split_and!.
    + destruct x; [done|discriminate].
    + rewrite !free_of_app. split_and!; done.
    + rewrite (endswith_dot_app x) by discriminate.
      by rewrite (endswith_dot_app "." rest IH1).
    + change ("." +:+ rest) with (String "." rest).
      by rewrite (split_app_sep _ _ _ Hx2), IH4.
Qed.

(** The suffixes of a file name made of plain parts joined by dots are
    its parts but the first, each with its dot; the text of the path is
    the name. *)
Lemma suffixes_plain (stem : string) (parts : list string) :
  plain_part stem = true → Forall (λ x, plain_part x = true) parts →
  let name := PyStr.join "." (stem :: parts) in
  PyPath.to_str (PyPath.parse name) = name
  ∧ PyPath.suffixes (PyPath.parse name) = map (λ x, "." +:+ x) parts.
Proof.
  intros Hstem Hparts name.
  destruct (join_plain (stem :: parts)) as (Hne & Hslash & Hend & Hsplit);
    [done | by constructor |]. fold name in Hne, Hslash, Hend, Hsplit.
  apply plain_part_spec in Hstem as (Hs1 & Hs2 & Hs3).
  destruct stem as [|c stem]; [done|].
  apply free_of_cons in Hs2 as [Hc Hs2].
  assert (Hhead : ∃ t, name = String c t).
  { subst name. destruct parts; [by eexists|]. rewrite join_cons. by eexists. }
  destruct Hhead as [t Ht].
  assert (Hdot : name ≠ ".").
  { rewrite Ht. intros [= -> _]. discriminate. }
  assert (Hparse : PyPath.parse name = mkPath "" [name]) by by apply parse_name.
  rewrite Hparse. split.
  - unfold PyPath.to_str. cbn [root names PyStr.join].
    change ("" +:+ name) with name.
    by destruct (String.eqb_spec name "").
  - unfold PyPath.suffixes, PyPath.name. cbn [names List.last]. rewrite Hend.
    assert (Hstrip : PyStr.lstrip_char "." name = name).
    { rewrite Ht. cbn [PyStr.lstrip_char]. by rewrite Hc. }
    by rewrite Hstrip, Hsplit.
Qed.

Lemma tar_test_suffixes (parts : list string) :
  (1 <? List.length (map (λ x, "." +:+ x) parts))%nat
  && String.eqb (nth (List.length (map (λ x, "." +:+ x) parts) - 2)
                     (map (λ x, "." +:+ x) parts) "") ".tar"
  = (1 <? List.length parts)%nat
    && String.eqb (nth (List.length parts - 2) parts "") "tar".
Proof.
  rewrite length_map.
  destruct (Nat.ltb_spec 1 (List.length parts)) as [Hlen|_]; [|done].
  cbn [andb].
  rewrite (nth_indep _ "" ("." +:+ "")) by (rewrite length_map; lia).
  rewrite (map_nth (λ x, "." +:+ x)). reflexivity.
Qed.

(** X18. For an archive named by plain parts joined with dots and given
    without a directory, [compress_files] and [decompress_file] take the
    same way: both go through tar exactly when the name has at least two
    suffixes and the last but one is [.tar], and both use the direct
    command otherwise; the commands name the archive as it was given. *)
Theorem tar_detection {tools : ArchTools} (srcs : list string) (stem : string)
    (parts : list string) (dir_ : string) (w : ArchWorld) :
  plain_part stem = true →
  Forall (λ x, plain_part x = true) parts →
  let archive := PyStr.join "." (stem :: parts) in
  let piped := (1 <? List.length parts)%nat
               && String.eqb (nth (List.length parts - 2) parts "") "tar" in
  compress_cmd srcs (PyPath.parse archive)
    = (if piped
       then CmdShell ("7z u .tar -so -- "
                      +:+ PyStr.join " " (map quote_cmdlinearg srcs)
                      +:+ " | 7z u -si -- " +:+ quote_cmdlinearg archive)
       else CmdArgs (["7z"; "u"; archive; "--"] ++ srcs))
  ∧ decompress_file archive dir_ w
    = runner_run (Some dir_)
        (if piped
         then CmdShell ("7z x " +:+ quote_cmdlinearg archive +:+ " -so | 7z x -si -ttar")
         else CmdArgs ["7z"; "x"; archive]) w.
Proof.
  intros Hstem Hparts archive piped.
  destruct (suffixes_plain stem parts Hstem Hparts) as [Hstr Hsfx].
  fold archive in Hstr, Hsfx.
  unfold compress_cmd, decompress_file. cbv zeta.
  rewrite Hsfx, Hstr, tar_test_suffixes. fold piped.
  split; by destruct piped.
Qed.

Lemma tar_detection_witness :
  let w := mkArchWorld Fs.empty [] in
  compress_cmd (tools := Sample.arch_tools) ["a"; "b"] (PyPath.parse "backup.tar.gz")
    = CmdShell "7z u .tar -so -- 'a' 'b' | 7z u -si -- 'backup.tar.gz'"
  ∧ decompress_file (tools := Sample.arch_tools) "backup.tar.gz" "/tmp/out" w
    = runner_run (tools := Sample.arch_tools) (Some "/tmp/out")
        (CmdShell "7z x 'backup.tar.gz' -so | 7z x -si -ttar") w.
Proof.
  intros w.
  apply (tar_detection (tools := Sample.arch_tools)
           ["a"; "b"] "backup" ["tar"; "gz"] "/tmp/out" w);
    [reflexivity | repeat constructor].
Defined.

(** ** Datasets inside a store *)

(** X19. For a dataset id of at least four characters without a slash
    whose remainder is neither a single dot nor the parent name [..],
    [create_ds_in_store] leaves the version file of the store itself as it
    was, whatever its outcome; a store that [create_store] accepted before
    is accepted after it, again without any operation. (With the
    remainder [..] the dataset directory is the store directory and the
    two version files are one.) *)
Theorem create_ds_in_store_keeps_store_stamp (io : StorageIO) (base_path : Path)
    (dsid obj_version store_version : string) (w : World) :
  free_of "/" dsid = true →
  (4 ≤ String.length dsid)%nat →
  PyStr.slice_from 3 dsid ≠ "." →
  PyStr.slice_from 3 dsid ≠ ".." →
  let w' := snd (create_ds_in_store io base_path dsid obj_version store_version w) in
  files (io_fs io w') !! (base_path / "ria-layout-version")
    = files (io_fs io w) !! (base_path / "ria-layout-version")
  ∧ (∀ version content : string,
       version ∈ known_versions_dst →
       files (io_fs io w) !! (base_path / "ria-layout-version") = Some content →
       create_store io base_path version w = (Ok tt, w) →
       create_store io base_path version w' = (Ok tt, w')).
Proof.
  intros Hfree Hlen Hdot _ w'.
  assert (Hkeep : files (io_fs io w') !! (base_path / "ria-layout-version")
                  = files (io_fs io w) !! (base_path / "ria-layout-version")).
  { subst w'.
    destruct (create_ds_in_store_run io base_path dsid obj_version store_version w)
      as [[e ->]| ->]; cbn [snd]; [done|].
    unfold replay, ds_events; cbn [foldl].
    rewrite (repo_of_plain_id base_path dsid Hfree Hlen Hdot).
    rewrite !files_do_event; [done..|].
    rewrite !div_version_file. cbn [root names]. intros [= Heq].
    apply (f_equal List.length) in Heq. rewrite !length_app in Heq.
    cbn [List.length] in Heq. lia. }
  split; [exact Hkeep|].
  intros version content Hv Hc Hrun.
  rewrite (create_store_present _ _ _ _ _ Hv Hc) in Hrun.
  rewrite <- Hkeep in Hc. rewrite (create_store_present _ _ _ _ _ Hv Hc).
  by injection Hrun as ->.
Qed.

Lemma create_ds_in_store_keeps_store_stamp_witness :
  let w := snd (create_store LocalIO Sample.store "1" Sample.fresh) in
  let w' := snd (create_ds_in_store LocalIO Sample.store "8d0aa4b7" "2" "1" w) in
  files (local_fs w') !! (Sample.store / "ria-layout-version") = Some "1"
  ∧ create_store LocalIO Sample.store "1" w' = (Ok tt, w').
Proof.
  intros w w'.
  destruct (create_ds_in_store_keeps_store_stamp LocalIO Sample.store "8d0aa4b7" "2" "1" w)
    as [Hkeep Hstore]; [reflexivity | simpl; lia | discriminate | discriminate |].
  split.
  - etrans; [exact Hkeep|]. reflexivity.
  - apply (Hstore "1" "1"); [by apply list_elem_of_here | reflexivity | reflexivity].
Defined.
